(** * Blog infrastructure toolkit: a model of [toolkit.py]

    The program is a linear orchestration of provider API calls (S3,
    CloudFront, Route53, ACM, STS) around a small mutable dictionary of
    resource identifiers, [self.resources].  The model keeps exactly that
    structure:

    - every provider call the source makes is a [request]; the provider's
      answer is typed by [response];
    - a run threads a [state] (the [resources] dictionary and the list of
      requests issued so far) through a state-and-exception monad [M];
    - [ClientError] is the only exception the source catches, and the only
      one this first model lets a provider call raise; the status query is
      modelled a second time over a provider whose calls may also raise
      other exceptions;
    - the [print] lines of the source are not modelled. *)

From Stdlib Require Import ZArith Ascii String.
From Stdlib Require Import DecimalPos DecimalZ DecimalString.
From stdpp Require Import gmap strings list fin_maps.

Local Open Scope string_scope.
Local Open Scope Z_scope.
Local Open Scope list_scope.

(** ** Python values used by the program *)

(** Truth value of an [Optional[str]]: [None] and the empty string are
    falsy, as in [if not certificate_arn]. *)
Definition truthy (v : option string) : bool :=
  match v with
  | Some s => negb (String.eqb s "")
  | None => false
  end.

(** [str(n)] for an integer, used by the f-string in [CallerReference]. *)
Definition str_of_int (n : Z) : string :=
  NilZero.string_of_int (Z.to_int n).

(** [s.rstrip(c)]: drop every trailing occurrence of the character [c]. *)
Fixpoint rstrip (c : ascii) (s : string) : string :=
  match s with
  | EmptyString => EmptyString
  | String a s' =>
      match rstrip c s' with
      | EmptyString =>
          if Ascii.eqb a c then EmptyString else String a EmptyString
      | r => String a r
      end
  end.

(** A string made of [n] copies of [c]. *)
Fixpoint repeat_char (c : ascii) (n : nat) : string :=
  match n with
  | O => EmptyString
  | S n' => String c (repeat_char c n')
  end.

(** The last character of a string, if any. *)
Fixpoint last_char (s : string) : option ascii :=
  match s with
  | EmptyString => None
  | String a EmptyString => Some a
  | String _ s' => last_char s'
  end.

(** Values stored in the dictionaries the program returns. *)
Inductive value : Type :=
  | VBool (b : bool)
  | VStr (s : string)
  | VStrList (l : list string)
  | VDict (d : gmap string (option string)).

(** ** Request payloads (the dict literals of the source) *)

Record Tag := { tag_Key : string; tag_Value : string }.

Record CertificateRequest := {
  cr_DomainName : string;
  cr_SubjectAlternativeNames : list string;
  cr_ValidationMethod : string;
  cr_Tags : list Tag
}.

Record PublicAccessBlockConfiguration := {
  pab_BlockPublicAcls : bool;
  pab_IgnorePublicAcls : bool;
  pab_BlockPublicPolicy : bool;
  pab_RestrictPublicBuckets : bool
}.

Record OriginAccessControlConfig := {
  oac_Name : string;
  oac_Description : string;
  oac_SigningProtocol : string;
  oac_SigningBehavior : string;
  oac_OriginAccessControlOriginType : string
}.

Record Origin := {
  origin_Id : string;
  origin_DomainName : string;
  origin_S3OriginConfig_OriginAccessIdentity : string;
  origin_OriginAccessControlId : string
}.

Record Origins := { origins_Quantity : Z; origins_Items : list Origin }.

Record ForwardedValues := {
  fv_QueryString : bool;
  fv_Cookies_Forward : string
}.

Record TrustedSigners := { ts_Enabled : bool; ts_Quantity : Z }.

Record DefaultCacheBehavior := {
  dcb_TargetOriginId : string;
  dcb_ViewerProtocolPolicy : string;
  dcb_MinTTL : Z;
  dcb_ForwardedValues : ForwardedValues;
  dcb_TrustedSigners : TrustedSigners
}.

Record Aliases := { aliases_Quantity : Z; aliases_Items : list string }.

Record ViewerCertificate := {
  vc_ACMCertificateArn : string;
  vc_SSLSupportMethod : string;
  vc_MinimumProtocolVersion : string
}.

Record DistributionConfig := {
  dc_CallerReference : string;
  dc_Comment : string;
  dc_DefaultRootObject : string;
  dc_Origins : Origins;
  dc_DefaultCacheBehavior : DefaultCacheBehavior;
  dc_Enabled : bool;
  dc_Aliases : Aliases;
  dc_ViewerCertificate : ViewerCertificate;
  dc_PriceClass : string
}.

(** The bucket policy document.  The source serialises it with
    [json.dumps] before sending; the model keeps the document itself. *)
Record PolicyStatement := {
  ps_Effect : string;
  ps_Principal_Service : string;
  ps_Action : string;
  ps_Resource : string;
  ps_Condition_StringEquals_SourceArn : string
}.

Record BucketPolicy := {
  bp_Version : string;
  bp_Statement : list PolicyStatement
}.

Record AliasTarget := {
  at_DNSName : string;
  at_EvaluateTargetHealth : bool;
  at_HostedZoneId : string
}.

Record ResourceRecordSet := {
  rrs_Name : string;
  rrs_Type : string;
  rrs_AliasTarget : AliasTarget
}.

Record Change := {
  change_Action : string;
  change_ResourceRecordSet : ResourceRecordSet
}.

Record ChangeBatch := { cb_Changes : list Change }.

(** ** Response payloads *)

Record HostedZone := { hz_Name : string; hz_Id : string }.

Record ResourceRecord := {
  rr_Name : string;
  rr_Value : string;
  rr_Type : string
}.

Record DomainValidationOption := {
  dvo_DomainName : string;
  dvo_ResourceRecord : option ResourceRecord
}.

Record Certificate := {
  cert_Status : string;
  cert_DomainValidationOptions : list DomainValidationOption
}.

Record Distribution := {
  dist_Id : string;
  dist_DomainName : string;
  dist_Status : string
}.

(** ** Provider calls *)

Inductive request : Type :=
  | S3_create_bucket (Bucket : string) (LocationConstraint : option string)
  | S3_put_bucket_versioning (Bucket : string) (Status : string)
  | S3_put_public_access_block (Bucket : string)
      (cfg : PublicAccessBlockConfiguration)
  | S3_put_bucket_policy (Bucket : string) (Policy : BucketPolicy)
  | S3_head_bucket (Bucket : string)
  | ACM_request_certificate (req : CertificateRequest)
  | ACM_describe_certificate (CertificateArn : string)
  | Route53_list_hosted_zones
  | Route53_change_resource_record_sets (HostedZoneId : string)
      (batch : ChangeBatch)
  | CloudFront_create_origin_access_control (cfg : OriginAccessControlConfig)
  | CloudFront_create_distribution (cfg : DistributionConfig)
  | CloudFront_get_distribution (Id : string)
  | STS_get_caller_identity.

(** What the source reads out of each call's response. *)
Definition response (r : request) : Type :=
  match r with
  | ACM_request_certificate _ => string
  | ACM_describe_certificate _ => Certificate
  | Route53_list_hosted_zones => list HostedZone
  | CloudFront_create_origin_access_control _ => string
  | CloudFront_create_distribution _ => Distribution
  | CloudFront_get_distribution _ => Distribution
  | STS_get_caller_identity => string
  | _ => unit
  end.

(** ** The state-and-exception monad *)

Record ClientError := { error_code : string; error_message : string }.

Inductive outcome (A : Type) : Type :=
  | Returned (a : A)
  | Raised (e : ClientError).
Arguments Returned {A} a.
Arguments Raised {A} e.

(** The mutable part of the object and the log of provider calls. *)
Record state := {
  resources : gmap string (option string);
  calls : list request
}.

(** Everything outside the process: the provider, which answers a request
    knowing the requests made before it, and the clock reading
    [int(time.time())]. *)
Record world := {
  api : list request -> forall r : request, outcome (response r);
  clock : Z
}.

Definition M (A : Type) : Type := world -> state -> outcome A * state.

Definition ret {A} (a : A) : M A := fun _ st => (Returned a, st).

Definition bind {A B} (m : M A) (k : A -> M B) : M B :=
  fun w st =>
    match m w st with
    | (Returned a, st') => k a w st'
    | (Raised e, st') => (Raised e, st')
    end.

(** [try: body except ClientError as e: handler e] *)
Definition try_except {A} (body : M A) (handler : ClientError -> M A) : M A :=
  fun w st =>
    match body w st with
    | (Returned a, st') => (Returned a, st')
    | (Raised e, st') => handler e w st'
    end.

Notation "'let*' x ':=' m 'in' k" := (bind m (fun x => k))
  (at level 10, x name, m at level 100, k at level 200).

(** Issue a provider call: log it, and return or raise what the provider
    answers. *)
Definition call (r : request) : M (response r) :=
  fun w st =>
    (api w (calls st) r,
     {| resources := resources st; calls := calls st ++ [r] |}).

(** [int(time.time())] *)
Definition time_time : M Z := fun w st => (Returned (clock w), st).

(** [self.resources[k] = v] *)
Definition set_resource (k : string) (v : option string) : M unit :=
  fun _ st =>
    (Returned tt,
     {| resources := <[k := v]> (resources st); calls := calls st |}).

(** [self.resources[k]], for the keys the constructor initialises. *)
Definition resource (k : string) (st : state) : option string :=
  default None (resources st !! k).

Definition get_resource (k : string) : M (option string) :=
  fun _ st => (Returned (resource k st), st).

Definition get_resources : M (gmap string (option string)) :=
  fun _ st => (Returned (resources st), st).

(** ** The [BlogInfrastructure] object *)

(** The fields fixed by [__init__].  [region_name] is
    [self.s3.meta.region_name], which boto3 resolves from the session. *)
Record BlogInfrastructure := {
  domain_name : string;
  www_domain : string;
  bucket_name : string;
  region_name : string
}.

Definition __init__ (domain region : string) : BlogInfrastructure :=
  {| domain_name := domain;
     www_domain := "www." +:+ domain;
     bucket_name := domain;
     region_name := region |}.

(** [self.resources] as [__init__] leaves it. *)
Definition init_resources (self : BlogInfrastructure)
  : gmap string (option string) :=
  <["bucket_name" := Some (bucket_name self)]>
  (<["certificate_arn" := None]>
  (<["distribution_id" := None]>
  (<["hosted_zone_id" := None]> ∅))).

Definition init_state (self : BlogInfrastructure) : state :=
  {| resources := init_resources self; calls := [] |}.

(** ** [create_s3_bucket] *)

Definition public_access_block : PublicAccessBlockConfiguration :=
  {| pab_BlockPublicAcls := true;
     pab_IgnorePublicAcls := true;
     pab_BlockPublicPolicy := true;
     pab_RestrictPublicBuckets := true |}.

(** The [try] block. *)
Definition create_s3_bucket_body (self : BlogInfrastructure) : M bool :=
  let* _ :=
    (if String.eqb (region_name self) "us-east-1"
     then call (S3_create_bucket (bucket_name self) None)
     else call (S3_create_bucket (bucket_name self)
                  (Some (region_name self)))) in
  let* _ := call (S3_put_bucket_versioning (bucket_name self) "Enabled") in
  let* _ := call (S3_put_public_access_block (bucket_name self)
                    public_access_block) in
  ret true.

(** The [except ClientError as e] block. *)
Definition create_s3_bucket_handler (e : ClientError) : M bool :=
  if String.eqb (error_code e) "BucketAlreadyOwnedByYou"
  then ret true
  else ret false.

Definition create_s3_bucket (self : BlogInfrastructure) : M bool :=
  try_except (create_s3_bucket_body self) create_s3_bucket_handler.

(** ** [request_ssl_certificate] *)

Definition certificate_request (self : BlogInfrastructure)
  : CertificateRequest :=
  {| cr_DomainName := domain_name self;
     cr_SubjectAlternativeNames := [www_domain self];
     cr_ValidationMethod := "DNS";
     cr_Tags :=
       [ {| tag_Key := "Name";
            tag_Value := domain_name self +:+ " Blog Certificate" |};
         {| tag_Key := "Purpose"; tag_Value := "Blog" |} ] |}.

Definition request_ssl_certificate (self : BlogInfrastructure)
  : M (option string) :=
  try_except
    (let* certificate_arn :=
       call (ACM_request_certificate (certificate_request self)) in
     let* _ := set_resource "certificate_arn" (Some certificate_arn) in
     ret (Some certificate_arn))
    (fun _ => ret None).

(** ** [get_certificate_validation_records] *)

Definition validation_record (option : DomainValidationOption)
  : list (gmap string string) :=
  match dvo_ResourceRecord option with
  | Some rr =>
      [ <["domain" := dvo_DomainName option]>
        (<["name" := rr_Name rr]>
        (<["value" := rr_Value rr]>
        (<["type" := rr_Type rr]> ∅))) ]
  | None => []
  end.

Definition get_certificate_validation_records (certificate_arn : string)
  : M (list (gmap string string)) :=
  try_except
    (let* response := call (ACM_describe_certificate certificate_arn) in
     ret (concat (map validation_record
                    (cert_DomainValidationOptions response))))
    (fun _ => ret []).

(** ** [get_hosted_zone_id] *)

(** The [for zone in response['HostedZones']] loop, with its early
    [return] and the fall-through [return None]. *)
Fixpoint scan_hosted_zones (self : BlogInfrastructure)
    (zones : list HostedZone) : M (option string) :=
  match zones with
  | [] => ret None
  | zone :: rest =>
      if String.eqb (rstrip "." (hz_Name zone)) (domain_name self)
      then
        let* _ := set_resource "hosted_zone_id" (Some (hz_Id zone)) in
        ret (Some (hz_Id zone))
      else scan_hosted_zones self rest
  end.

Definition get_hosted_zone_id (self : BlogInfrastructure)
  : M (option string) :=
  try_except
    (let* response := call Route53_list_hosted_zones in
     scan_hosted_zones self response)
    (fun _ => ret None).

(** ** [_update_s3_bucket_policy] *)

Definition bucket_policy (self : BlogInfrastructure)
    (account distribution_id : string) : BucketPolicy :=
  {| bp_Version := "2012-10-17";
     bp_Statement :=
       [ {| ps_Effect := "Allow";
            ps_Principal_Service := "cloudfront.amazonaws.com";
            ps_Action := "s3:GetObject";
            ps_Resource := "arn:aws:s3:::" +:+ bucket_name self +:+ "/*";
            ps_Condition_StringEquals_SourceArn :=
              "arn:aws:cloudfront::" +:+ account +:+ ":distribution/"
                +:+ distribution_id |} ] |}.

(** The STS call sits in the dict literal, before the [try]: a
    [ClientError] it raises leaves this function. *)
Definition _update_s3_bucket_policy (self : BlogInfrastructure)
    (distribution_id : string) : M unit :=
  let* account := call STS_get_caller_identity in
  try_except
    (let* _ := call (S3_put_bucket_policy (bucket_name self)
                       (bucket_policy self account distribution_id)) in
     ret tt)
    (fun _ => ret tt).

(** ** [create_cloudfront_distribution] *)

Definition origin_access_control_config (self : BlogInfrastructure)
  : OriginAccessControlConfig :=
  {| oac_Name := domain_name self +:+ "-oac";
     oac_Description := "OAC for " +:+ domain_name self +:+ " blog";
     oac_SigningProtocol := "sigv4";
     oac_SigningBehavior := "always";
     oac_OriginAccessControlOriginType := "s3" |}.

Definition distribution_config (self : BlogInfrastructure)
    (certificate_arn oac_id : string) (now : Z) : DistributionConfig :=
  {| dc_CallerReference := domain_name self +:+ "-" +:+ str_of_int now;
     dc_Comment := "Blog distribution for " +:+ domain_name self;
     dc_DefaultRootObject := "index.html";
     dc_Origins :=
       {| origins_Quantity := 1;
          origins_Items :=
            [ {| origin_Id := bucket_name self +:+ "-origin";
                 origin_DomainName :=
                   bucket_name self +:+ ".s3.amazonaws.com";
                 origin_S3OriginConfig_OriginAccessIdentity := "";
                 origin_OriginAccessControlId := oac_id |} ] |};
     dc_DefaultCacheBehavior :=
       {| dcb_TargetOriginId := bucket_name self +:+ "-origin";
          dcb_ViewerProtocolPolicy := "redirect-to-https";
          dcb_MinTTL := 0;
          dcb_ForwardedValues :=
            {| fv_QueryString := false; fv_Cookies_Forward := "none" |};
          dcb_TrustedSigners := {| ts_Enabled := false; ts_Quantity := 0 |} |};
     dc_Enabled := true;
     dc_Aliases :=
       {| aliases_Quantity := 2;
          aliases_Items := [domain_name self; www_domain self] |};
     dc_ViewerCertificate :=
       {| vc_ACMCertificateArn := certificate_arn;
          vc_SSLSupportMethod := "sni-only";
          vc_MinimumProtocolVersion := "TLSv1.2_2021" |};
     dc_PriceClass := "PriceClass_100" |}.

Definition create_cloudfront_distribution (self : BlogInfrastructure)
    (certificate_arn : string) : M (option string) :=
  try_except
    (let* oac_id :=
       call (CloudFront_create_origin_access_control
               (origin_access_control_config self)) in
     let* now := time_time in
     let* response :=
       call (CloudFront_create_distribution
               (distribution_config self certificate_arn oac_id now)) in
     let distribution_id := dist_Id response in
     let domain_name := dist_DomainName response in
     let* _ := set_resource "distribution_id" (Some distribution_id) in
     let* _ := set_resource "cloudfront_domain" (Some domain_name) in
     let* _ := _update_s3_bucket_policy self distribution_id in
     ret (Some distribution_id))
    (fun _ => ret None).

(** ** [create_route53_records] *)

Definition alias_change (name cloudfront_domain : string) : ChangeBatch :=
  {| cb_Changes :=
       [ {| change_Action := "UPSERT";
            change_ResourceRecordSet :=
              {| rrs_Name := name;
                 rrs_Type := "A";
                 rrs_AliasTarget :=
                   {| at_DNSName := cloudfront_domain;
                      at_EvaluateTargetHealth := false;
                      at_HostedZoneId := "Z2FDTNDATAQYW2" |} |} |} ] |}.

Definition create_route53_records (self : BlogInfrastructure)
    (cloudfront_domain : string) : M bool :=
  let* hosted_zone_id := get_hosted_zone_id self in
  match hosted_zone_id with
  | None => ret false
  | Some zone_id =>
      if negb (truthy hosted_zone_id) then ret false
      else
        try_except
          (let* _ :=
             call (Route53_change_resource_record_sets zone_id
                     (alias_change (domain_name self) cloudfront_domain)) in
           let* _ :=
             call (Route53_change_resource_record_sets zone_id
                     (alias_change (www_domain self) cloudfront_domain)) in
           ret true)
          (fun _ => ret false)
  end.

(** ** [deploy_full_infrastructure] *)

Definition next_steps : list string :=
  [ "Validate SSL certificate in ACM console";
    "Run create_cloudfront_distribution() when certificate is issued";
    "Run create_route53_records() after CloudFront is deployed" ].

Definition deploy_full_infrastructure (self : BlogInfrastructure)
  : M (gmap string value) :=
  let* created := create_s3_bucket self in
  if negb created
  then ret (<["success" := VBool false]>
            (<["step" := VStr "S3 bucket creation"]> ∅))
  else
    let* certificate_arn := request_ssl_certificate self in
    match certificate_arn with
    | None =>
        ret (<["success" := VBool false]>
             (<["step" := VStr "SSL certificate request"]> ∅))
    | Some arn =>
        if negb (truthy certificate_arn)
        then ret (<["success" := VBool false]>
                  (<["step" := VStr "SSL certificate request"]> ∅))
        else ret (<["success" := VBool true]>
                  (<["step" := VStr "Certificate validation required"]>
                  (<["certificate_arn" := VStr arn]>
                  (<["next_steps" := VStrList next_steps]> ∅))))
    end.

(** ** [get_status] *)

(** [status[k] = v] on the local dictionary. *)
Definition set_status (k : string) (v : value) (status : gmap string value)
  : gmap string value := <[k := v]> status.

(** The block under [# Check S3 bucket]. *)
Definition check_s3_bucket (self : BlogInfrastructure)
    (status : gmap string value) : M (gmap string value) :=
  try_except
    (let* _ := call (S3_head_bucket (bucket_name self)) in
     ret (set_status "s3_bucket" (VStr "exists") status))
    (fun _ => ret (set_status "s3_bucket" (VStr "missing") status)).

(** The block under [# Check certificate]. *)
Definition check_certificate (status : gmap string value)
  : M (gmap string value) :=
  let* certificate_arn := get_resource "certificate_arn" in
  match certificate_arn with
  | Some arn =>
      if truthy certificate_arn
      then
        try_except
          (let* response := call (ACM_describe_certificate arn) in
           ret (set_status "certificate_status"
                  (VStr (cert_Status response)) status))
          (fun _ =>
             ret (set_status "certificate_status" (VStr "error") status))
      else ret status
  | None => ret status
  end.

(** The block under [# Check CloudFront distribution]. *)
Definition check_cloudfront_distribution (status : gmap string value)
  : M (gmap string value) :=
  let* distribution_id := get_resource "distribution_id" in
  match distribution_id with
  | Some id =>
      if truthy distribution_id
      then
        try_except
          (let* response := call (CloudFront_get_distribution id) in
           ret (set_status "distribution_status"
                  (VStr (dist_Status response)) status))
          (fun _ =>
             ret (set_status "distribution_status" (VStr "error") status))
      else ret status
  | None => ret status
  end.

Definition get_status (self : BlogInfrastructure) : M (gmap string value) :=
  let* copy := get_resources in
  let status :=
    <["domain" := VStr (domain_name self)]>
    (<["resources" := VDict copy]> ∅) in
  let* status := check_s3_bucket self status in
  let* status := check_certificate status in
  let* status := check_cloudfront_distribution status in
  ret status.

(** ** Observing a run *)

(** The value a computation returns (or the error it raises). *)
Definition result_of {A} (m : M A) (w : world) (st : state) : outcome A :=
  (m w st).1.

(** The state a computation leaves. *)
Definition state_after {A} (m : M A) (w : world) (st : state) : state :=
  (m w st).2.

(** The provider calls a computation makes, oldest first. *)
Definition issued {A} (m : M A) (w : world) (st : state) : list request :=
  drop (length (calls st)) (calls (state_after m w st)).

Definition certificate_requests (l : list request)
  : list CertificateRequest :=
  omap (fun r => match r with
                 | ACM_request_certificate req => Some req
                 | _ => None
                 end) l.

Definition oac_configs (l : list request) : list OriginAccessControlConfig :=
  omap (fun r => match r with
                 | CloudFront_create_origin_access_control cfg => Some cfg
                 | _ => None
                 end) l.

Definition distribution_configs (l : list request) : list DistributionConfig :=
  omap (fun r => match r with
                 | CloudFront_create_distribution cfg => Some cfg
                 | _ => None
                 end) l.

Definition bucket_policies (l : list request) : list BucketPolicy :=
  omap (fun r => match r with
                 | S3_put_bucket_policy _ p => Some p
                 | _ => None
                 end) l.

(** The record sets of all changes submitted to Route53. *)
Definition record_sets (l : list request) : list ResourceRecordSet :=
  concat (omap (fun r =>
                  match r with
                  | Route53_change_resource_record_sets _ b =>
                      Some (map change_ResourceRecordSet (cb_Changes b))
                  | _ => None
                  end) l).

Definition change_requests (l : list request) : list (string * ChangeBatch) :=
  omap (fun r => match r with
                 | Route53_change_resource_record_sets z b => Some (z, b)
                 | _ => None
                 end) l.

(** Calls to the object store, as opposed to any other service. *)
Definition is_s3_call (r : request) : bool :=
  match r with
  | S3_create_bucket _ _ | S3_put_bucket_versioning _ _
  | S3_put_public_access_block _ _ | S3_put_bucket_policy _ _
  | S3_head_bucket _ => true
  | _ => false
  end.

(** The names a certificate request covers: the primary name, then the
    alternative names. *)
Definition covered_names (req : CertificateRequest) : list string :=
  cr_DomainName req :: cr_SubjectAlternativeNames req.

(** ** Example providers *)

Definition sample_certificate_arn : string :=
  "arn:aws:acm:us-east-1:123456789012:certificate/0a1b2c3d".

Definition sample_zones : list HostedZone :=
  [ {| hz_Name := "example.org."; hz_Id := "/hostedzone/Z0AAAAAAAAAAAA" |};
    {| hz_Name := "example.com."; hz_Id := "/hostedzone/Z1BBBBBBBBBBBB" |};
    {| hz_Name := "example.com."; hz_Id := "/hostedzone/Z2CCCCCCCCCCCC" |} ].

Definition sample_distribution : Distribution :=
  {| dist_Id := "E2EXAMPLE";
     dist_DomainName := "d111111abcdef8.cloudfront.net";
     dist_Status := "InProgress" |}.

(** A provider that accepts every call. *)
Definition accept (r : request) : response r :=
  match r return response r with
  | S3_create_bucket _ _ => tt
  | S3_put_bucket_versioning _ _ => tt
  | S3_put_public_access_block _ _ => tt
  | S3_put_bucket_policy _ _ => tt
  | S3_head_bucket _ => tt
  | ACM_request_certificate _ => sample_certificate_arn
  | ACM_describe_certificate _ =>
      {| cert_Status := "PENDING_VALIDATION";
         cert_DomainValidationOptions := [] |}
  | Route53_list_hosted_zones => sample_zones
  | Route53_change_resource_record_sets _ _ => tt
  | CloudFront_create_origin_access_control _ => "E3OACEXAMPLE"
  | CloudFront_create_distribution _ => sample_distribution
  | CloudFront_get_distribution _ => sample_distribution
  | STS_get_caller_identity => "123456789012"
  end.

Definition accepting_world (now : Z) : world :=
  {| api := fun _ r => Returned (accept r); clock := now |}.

(** A provider that rejects the calls selected by [rejects] with the error
    code [code] and accepts the others. *)
Definition rejecting_world (rejects : request -> bool) (code : string)
    (now : Z) : world :=
  {| api := fun _ r =>
       if rejects r
       then Raised {| error_code := code; error_message := "rejected" |}
       else Returned (accept r);
     clock := now |}.

Definition is_create_bucket (r : request) : bool :=
  match r with S3_create_bucket _ _ => true | _ => false end.

Definition is_head_bucket (r : request) : bool :=
  match r with S3_head_bucket _ => true | _ => false end.

Definition is_describe_certificate (r : request) : bool :=
  match r with ACM_describe_certificate _ => true | _ => false end.

Definition example_com : BlogInfrastructure :=
  __init__ "example.com" "eu-west-1".

(** ** Vocabulary of the statements *)

(** The [create_bucket] request of the bucket stage: the location
    constraint is left out in us-east-1. *)
Definition create_bucket_request (self : BlogInfrastructure) : request :=
  S3_create_bucket (bucket_name self)
    (if String.eqb (region_name self) "us-east-1" then None
     else Some (region_name self)).

(** The state after some more calls were logged. *)
Definition with_calls (st : state) (l : list request) : state :=
  {| resources := resources st; calls := calls st ++ l |}.

(** The state after [self.resources[k] = v]. *)
Definition with_resource (k : string) (v : option string) (st : state)
  : state :=
  {| resources := <[k := v]> (resources st); calls := calls st |}.

(** The error code S3 uses for a bucket the caller already has. *)
Definition already_owned (e : ClientError) : bool :=
  String.eqb (error_code e) "BucketAlreadyOwnedByYou".

(** The first provider error the bucket stage meets, if any: its three
    calls are made in order, each seeing the ones before it. *)
Definition bucket_stage_error (self : BlogInfrastructure) (w : world)
    (st : state) : option ClientError :=
  let r1 := create_bucket_request self in
  let r2 := S3_put_bucket_versioning (bucket_name self) "Enabled" in
  let r3 := S3_put_public_access_block (bucket_name self)
              public_access_block in
  match api w (calls st) r1 with
  | Raised e => Some e
  | Returned _ =>
      match api w (calls st ++ [r1]) r2 with
      | Raised e => Some e
      | Returned _ =>
          match api w (calls st ++ [r1; r2]) r3 with
          | Raised e => Some e
          | Returned _ => None
          end
      end
  end.

(** A hosted zone matches when its name, with the trailing dots removed,
    is the apex domain. *)
Definition zone_matches (self : BlogInfrastructure) (zone : HostedZone)
  : Prop :=
  rstrip "." (hz_Name zone) = domain_name self.

(** The test of the scan loop, and the first zone that passes it. *)
Definition zone_matchesb (self : BlogInfrastructure) (zone : HostedZone)
  : bool :=
  String.eqb (rstrip "." (hz_Name zone)) (domain_name self).

Definition first_matching_zone (self : BlogInfrastructure)
    (zones : list HostedZone) : option HostedZone :=
  List.find (zone_matchesb self) zones.

(** The zone identifier the provider's zone listing resolves to. *)
Definition resolved_zone (self : BlogInfrastructure) (w : world)
    (st : state) : option string :=
  match api w (calls st) Route53_list_hosted_zones with
  | Returned zones => hz_Id <$> first_matching_zone self zones
  | Raised _ => None
  end.

(** The alias record set published for [name]. *)
Definition alias_record_set (name cloudfront_domain : string)
  : ResourceRecordSet :=
  {| rrs_Name := name;
     rrs_Type := "A";
     rrs_AliasTarget :=
       {| at_DNSName := cloudfront_domain;
          at_EvaluateTargetHealth := false;
          at_HostedZoneId := "Z2FDTNDATAQYW2" |} |}.

(** The request that opens [create_cloudfront_distribution]. *)
Definition create_oac_request (self : BlogInfrastructure) : request :=
  CloudFront_create_origin_access_control (origin_access_control_config self).

(** The reading of the specification's ledger invariant for the
    certificate: the certificate named in every distribution configuration
    a run submits is the one the ledger held when the run started. *)
Definition certificate_read_from_ledger (self : BlogInfrastructure)
    (certificate_arn : string) (w : world) (st : state) : Prop :=
  Forall (fun cfg =>
            resource "certificate_arn" st
            = Some (vc_ACMCertificateArn (dc_ViewerCertificate cfg)))
    (distribution_configs
       (issued (create_cloudfront_distribution self certificate_arn) w st)).

(** A ledger left by an earlier certificate request. *)
Definition stale_state (self : BlogInfrastructure) : state :=
  with_resource "certificate_arn"
    (Some "arn:aws:acm:us-east-1:123456789012:certificate/old")
    (init_state self).

(** The identifier in a ledger slot when the slot passes the
    [if self.resources[...]] test. *)
Definition usable (v : option string) : option string :=
  match v with
  | Some id => if truthy v then Some id else None
  | None => None
  end.

(** A status field fetched live: what the provider reports, or the marker
    "error" when the query raises. *)
Definition live_status {A} (field : A -> string) (o : outcome A) : value :=
  VStr (match o with
        | Returned a => field a
        | Raised _ => "error"
        end).

(** The sub-queries [get_status] makes for the certificate and for the
    distribution, given the ledger. *)
Definition certificate_query (st : state) : list request :=
  match usable (resource "certificate_arn" st) with
  | Some arn => [ACM_describe_certificate arn]
  | None => []
  end.

Definition distribution_query (st : state) : list request :=
  match usable (resource "distribution_id" st) with
  | Some id => [CloudFront_get_distribution id]
  | None => []
  end.

(** The two stages of [deploy_full_infrastructure] and the step names it
    reports for them. *)
Inductive stage : Type := StageBucket | StageCertificate.

Definition step_name (s : stage) : string :=
  match s with
  | StageBucket => "S3 bucket creation"
  | StageCertificate => "SSL certificate request"
  end.

(** What the pipeline returns when a stage fails. *)
Definition failure_report (s : stage) : gmap string value :=
  <["success" := VBool false]> (<["step" := VStr (step_name s)]> ∅).

(** A stage fails hard: the bucket stage meets a provider error other
    than "already owned"; or the bucket stage succeeds and the certificate
    stage then yields no certificate identifier. *)
Definition stage_fails (self : BlogInfrastructure) (w : world) (st : state)
    (s : stage) : Prop :=
  match s with
  | StageBucket =>
      exists e, bucket_stage_error self w st = Some e
                /\ error_code e <> "BucketAlreadyOwnedByYou"
  | StageCertificate =>
      result_of (create_s3_bucket self) w st = Returned true
      /\ exists c,
           result_of (request_ssl_certificate self) w
             (state_after (create_s3_bucket self) w st) = Returned c
           /\ truthy c = false
  end.

(** The calls made up to and including a stage. *)
Definition issued_through (self : BlogInfrastructure) (w : world)
    (st : state) (s : stage) : list request :=
  match s with
  | StageBucket => issued (create_s3_bucket self) w st
  | StageCertificate =>
      issued (create_s3_bucket self) w st
      ++ issued (request_ssl_certificate self) w
           (state_after (create_s3_bucket self) w st)
  end.

(** A computation is orderly when it only appends to the call log and
    never removes a key from the ledger. *)
Definition orderly {A} (m : M A) : Prop :=
  forall w st,
    (exists l, calls (state_after m w st) = calls st ++ l)
    /\ dom (resources st) ⊆ dom (resources (state_after m w st)).

(** ** [upload_sample_content] and the command line

    [upload_sample_content] makes one more kind of provider call,
    [put_object].  The command-line layer therefore runs over the calls
    above extended with it; the operations above are run unchanged inside
    this layer by [lift]. *)

Inductive cli_request : Type :=
  | Core (r : request)
  | S3_put_object (Bucket Key Body ContentType : string).

Definition cli_response (r : cli_request) : Type :=
  match r with
  | Core r => response r
  | S3_put_object _ _ _ _ => unit
  end.

Record cli_state := {
  cli_resources : gmap string (option string);
  cli_calls : list cli_request
}.

Record cli_world := {
  cli_api : list cli_request -> forall r : cli_request,
            outcome (cli_response r);
  cli_clock : Z
}.

Definition C (A : Type) : Type :=
  cli_world -> cli_state -> outcome A * cli_state.

Definition cli_ret {A} (a : A) : C A := fun _ st => (Returned a, st).

Definition cli_bind {A B} (m : C A) (k : A -> C B) : C B :=
  fun w st =>
    match m w st with
    | (Returned a, st') => k a w st'
    | (Raised e, st') => (Raised e, st')
    end.

Definition cli_try_except {A} (body : C A) (handler : ClientError -> C A)
  : C A :=
  fun w st =>
    match body w st with
    | (Returned a, st') => (Returned a, st')
    | (Raised e, st') => handler e w st'
    end.

Definition cli_call (r : cli_request) : C (cli_response r) :=
  fun w st =>
    (cli_api w (cli_calls st) r,
     {| cli_resources := cli_resources st;
        cli_calls := cli_calls st ++ [r] |}).

(** The provider as an operation of the core sees it, after the calls in
    [before]. *)
Definition core_world (w : cli_world) (before : list cli_request) : world :=
  {| api := fun h r => cli_api w (before ++ map Core h) (Core r);
     clock := cli_clock w |}.

(** Run an operation of the core in the command-line layer: same ledger,
    same provider, its calls appended to the log. *)
Definition lift {A} (m : M A) : C A :=
  fun w st =>
    let '(r, st') :=
      m (core_world w (cli_calls st))
        {| resources := cli_resources st; calls := [] |} in
    (r, {| cli_resources := resources st';
           cli_calls := cli_calls st ++ map Core (calls st') |}).

(** The double quote and the line feed. *)
Definition dq : string := String "034"%char "".
Definition nl : string := String "010"%char "".

(** The f-string of [upload_sample_content], line by line, as the bytes of
    its UTF-8 encoding. *)
Definition sample_html (self : BlogInfrastructure) : string :=
  String.concat nl
    [
      "<!DOCTYPE html>";
      "<html lang=" +:+ dq +:+ "en" +:+ dq +:+ ">";
      "<head>";
      "    <meta charset=" +:+ dq +:+ "UTF-8" +:+ dq +:+ ">";
      "    <meta name=" +:+ dq +:+ "viewport" +:+ dq +:+ " content=" +:+
        dq +:+ "width=device-width, initial-scale=1.0" +:+ dq +:+ ">";
      "    <title>Welcome to " +:+ domain_name self +:+ "</title>";
      "    <style>";
      "        body { font-family: Arial, sans-serif; max-width: 800px; margin: 0 auto; padding: 20px; }";
      "        .header { text-align: center; margin-bottom: 40px; }";
      "        .content { line-height: 1.6; }";
      "    </style>";
      "</head>";
      "<body>";
      "    <div class=" +:+ dq +:+ "header" +:+ dq +:+ ">";
      "        <h1>Welcome to " +:+ domain_name self +:+ "</h1>";
      "        <p>Your secure AWS blog is now live!</p>";
      "    </div>";
      "    <div class=" +:+ dq +:+ "content" +:+ dq +:+ ">";
      "        <h2>Setup Complete</h2>";
      "        <p>Your blog infrastructure has been successfully deployed with:</p>";
      "        <ul>";
      "            <li>✓ S3 bucket for static content storage</li>";
      "            <li>✓ CloudFront CDN for fast, secure delivery</li>";
      "            <li>✓ SSL certificate for HTTPS</li>";
      "            <li>✓ Route53 DNS configuration</li>";
      "        </ul>";
      "        <p>You can now upload your blog content to replace this page.</p>";
      "    </div>";
      "</body>";
      "</html>"
    ].

Definition upload_sample_content (self : BlogInfrastructure) : C unit :=
  cli_try_except
    (cli_bind
       (cli_call (S3_put_object (bucket_name self) "index.html"
                    (sample_html self) "text/html"))
       (fun _ => cli_ret tt))
    (fun _ => cli_ret tt).

(** The object and ledger a fresh process starts from. *)
Definition cli_init_state (self : BlogInfrastructure) : cli_state :=
  {| cli_resources := init_resources self; cli_calls := [] |}.

(** [main], after [argparse] has produced [args.domain] and [args.action];
    [region] is the region boto3 resolves for [args.profile].  Each branch
    ends in [print]s, which are not modelled. *)
Definition main (domain region action : string) : C unit :=
  let blog := __init__ domain region in
  if String.eqb action "deploy" then
    cli_bind (lift (deploy_full_infrastructure blog)) (fun _ => cli_ret tt)
  else if String.eqb action "status" then
    cli_bind (lift (get_status blog)) (fun _ => cli_ret tt)
  else if String.eqb action "upload-sample" then
    upload_sample_content blog
  else cli_ret tt.

(** A run of the program from the command line. *)
Definition run_main (domain region action : string) (w : cli_world)
  : outcome unit * cli_state :=
  main domain region action w (cli_init_state (__init__ domain region)).

(** ** Vocabulary of the further properties *)

(** The provider services. *)
Inductive service : Type := S3 | ACM | Route53 | CloudFront | STS.

Definition service_of (r : request) : service :=
  match r with
  | S3_create_bucket _ _ | S3_put_bucket_versioning _ _
  | S3_put_public_access_block _ _ | S3_put_bucket_policy _ _
  | S3_head_bucket _ => S3
  | ACM_request_certificate _ | ACM_describe_certificate _ => ACM
  | Route53_list_hosted_zones
  | Route53_change_resource_record_sets _ _ => Route53
  | CloudFront_create_origin_access_control _
  | CloudFront_create_distribution _
  | CloudFront_get_distribution _ => CloudFront
  | STS_get_caller_identity => STS
  end.

(** The bucket a call to the object store names. *)
Definition bucket_of (r : request) : option string :=
  match r with
  | S3_create_bucket b _ | S3_put_bucket_versioning b _
  | S3_put_public_access_block b _ | S3_put_bucket_policy b _
  | S3_head_bucket b => Some b
  | _ => None
  end.


(** A computation is confined to the calls [P] and the ledger slots [K]
    when every call it makes satisfies [P] and every slot outside [K] is
    left as it was. *)
Definition confined {A} (P : request -> Prop) (K : list string) (m : M A)
  : Prop :=
  forall w st,
    (exists l, calls (state_after m w st) = calls st ++ l /\ Forall P l)
    /\ (forall k, k ∉ K ->
        resources (state_after m w st) !! k = resources st !! k).

(** The operations of the object, by name. *)
Inductive operation : Type :=
  | Op_create_s3_bucket
  | Op_request_ssl_certificate
  | Op_get_certificate_validation_records (certificate_arn : string)
  | Op_get_hosted_zone_id
  | Op_create_cloudfront_distribution (certificate_arn : string)
  | Op__update_s3_bucket_policy (distribution_id : string)
  | Op_create_route53_records (cloudfront_domain : string)
  | Op_deploy_full_infrastructure
  | Op_get_status.

(** The services an operation may call and the ledger slots it may write,
    as read off its body. *)
Definition services_of (op : operation) : list service :=
  match op with
  | Op_create_s3_bucket => [S3]
  | Op_request_ssl_certificate => [ACM]
  | Op_get_certificate_validation_records _ => [ACM]
  | Op_get_hosted_zone_id => [Route53]
  | Op_create_cloudfront_distribution _ => [CloudFront; STS; S3]
  | Op__update_s3_bucket_policy _ => [STS; S3]
  | Op_create_route53_records _ => [Route53]
  | Op_deploy_full_infrastructure => [S3; ACM]
  | Op_get_status => [S3; ACM; CloudFront]
  end.

Definition slots_of (op : operation) : list string :=
  match op with
  | Op_request_ssl_certificate | Op_deploy_full_infrastructure =>
      ["certificate_arn"]
  | Op_get_hosted_zone_id | Op_create_route53_records _ =>
      ["hosted_zone_id"]
  | Op_create_cloudfront_distribution _ =>
      ["distribution_id"; "cloudfront_domain"]
  | _ => []
  end.

(** Running an operation, its return value dropped. *)
Definition perform (self : BlogInfrastructure) (op : operation) : M unit :=
  match op with
  | Op_create_s3_bucket => let* _ := create_s3_bucket self in ret tt
  | Op_request_ssl_certificate =>
      let* _ := request_ssl_certificate self in ret tt
  | Op_get_certificate_validation_records arn =>
      let* _ := get_certificate_validation_records arn in ret tt
  | Op_get_hosted_zone_id => let* _ := get_hosted_zone_id self in ret tt
  | Op_create_cloudfront_distribution arn =>
      let* _ := create_cloudfront_distribution self arn in ret tt
  | Op__update_s3_bucket_policy id => _update_s3_bucket_policy self id
  | Op_create_route53_records d =>
      let* _ := create_route53_records self d in ret tt
  | Op_deploy_full_infrastructure =>
      let* _ := deploy_full_infrastructure self in ret tt
  | Op_get_status => let* _ := get_status self in ret tt
  end.

(** A sequence of operations on one object, stopping at an uncaught
    error. *)
Fixpoint perform_all (self : BlogInfrastructure) (ops : list operation)
  : M unit :=
  match ops with
  | [] => ret tt
  | op :: rest => let* _ := perform self op in perform_all self rest
  end.

(** Observing a run of the command-line layer. *)
Definition cli_result_of {A} (m : C A) (w : cli_world) (st : cli_state)
  : outcome A := (m w st).1.

Definition cli_state_after {A} (m : C A) (w : cli_world) (st : cli_state)
  : cli_state := (m w st).2.

(** A command-line provider that accepts every call, and one that rejects
    every call. *)
Definition cli_accepting_world : cli_world :=
  {| cli_api := fun _ r =>
       match r return outcome (cli_response r) with
       | Core r => Returned (accept r)
       | S3_put_object _ _ _ _ => Returned tt
       end;
     cli_clock := 0 |}.

Definition cli_rejecting_world : cli_world :=
  {| cli_api := fun _ r =>
       Raised {| error_code := "AccessDenied"; error_message := "rejected" |};
     cli_clock := 0 |}.

(** Selectors for the example providers. *)
Definition is_get_caller_identity (r : request) : bool :=
  match r with STS_get_caller_identity => true | _ => false end.

Definition is_put_bucket_policy (r : request) : bool :=
  match r with S3_put_bucket_policy _ _ => true | _ => false end.

Definition is_put_bucket_versioning (r : request) : bool :=
  match r with S3_put_bucket_versioning _ _ => true | _ => false end.

Definition is_create_distribution (r : request) : bool :=
  match r with CloudFront_create_distribution _ => true | _ => false end.

Definition is_request_certificate (r : request) : bool :=
  match r with ACM_request_certificate _ => true | _ => false end.

(** The change request for the record named [name]. *)
Definition is_upsert_of (name : string) (r : request) : bool :=
  match r with
  | Route53_change_resource_record_sets _ batch =>
      forallb (fun c => String.eqb (rrs_Name (change_ResourceRecordSet c)) name)
        (cb_Changes batch)
  | _ => false
  end.

(** The slots [__init__] creates. *)
Definition init_slots : list string :=
  ["bucket_name"; "certificate_arn"; "distribution_id"; "hosted_zone_id"].

(** A computation that lets no [ClientError] escape. *)
Definition never_raises {A} (m : M A) : Prop :=
  forall w st, exists a, result_of m w st = Returned a.

(** The operations a caller is meant to use: all but the helper whose name
    starts with an underscore. *)
Definition public (op : operation) : Prop :=
  match op with
  | Op__update_s3_bucket_policy _ => False
  | _ => True
  end.

(** A certificate with one validation option that carries its resource
    record and one that does not yet. *)
Definition sample_certificate : Certificate :=
  {| cert_Status := "PENDING_VALIDATION";
     cert_DomainValidationOptions :=
       [ {| dvo_DomainName := "example.com";
            dvo_ResourceRecord :=
              Some {| rr_Name := "_a1.example.com.";
                      rr_Value := "_b2.acm-validations.aws.";
                      rr_Type := "CNAME" |} |};
         {| dvo_DomainName := "www.example.com";
            dvo_ResourceRecord := None |} ] |}.

(** A provider that describes every certificate as [sample_certificate]
    and otherwise accepts every call. *)
Definition validation_world : world :=
  {| api := fun _ r =>
       match r return outcome (response r) with
       | ACM_describe_certificate _ => Returned sample_certificate
       | r => Returned (accept r)
       end;
     clock := 0 |}.

(** An apex domain written with its trailing dot. *)
Definition example_com_dot : BlogInfrastructure :=
  __init__ "example.com." "eu-west-1".

(** ** [get_status] when a call may raise something else

    A boto3 call can also raise an exception that is not a [ClientError]
    (botocore's own errors, such as [ParamValidationError] for an empty
    bucket name).  [except ClientError] does not catch those.  The status
    query is modelled a second time over a provider whose calls may fail
    either way. *)

Inductive failure : Type :=
  | Client_error (e : ClientError)
  | Other_error (name : string).

Inductive outcome_x (A : Type) : Type :=
  | Returned_x (a : A)
  | Raised_x (f : failure).
Arguments Returned_x {A} a.
Arguments Raised_x {A} f.

Record world_x := {
  api_x : list request -> forall r : request, outcome_x (response r)
}.

Definition MX (A : Type) : Type := world_x -> state -> outcome_x A * state.

Definition ret_x {A} (a : A) : MX A := fun _ st => (Returned_x a, st).

Definition bind_x {A B} (m : MX A) (k : A -> MX B) : MX B :=
  fun w st =>
    match m w st with
    | (Returned_x a, st') => k a w st'
    | (Raised_x f, st') => (Raised_x f, st')
    end.

(** [try: body except ClientError as e: handler e]: any other exception
    passes through. *)
Definition try_except_x {A} (body : MX A) (handler : ClientError -> MX A)
  : MX A :=
  fun w st =>
    match body w st with
    | (Returned_x a, st') => (Returned_x a, st')
    | (Raised_x (Client_error e), st') => handler e w st'
    | (Raised_x (Other_error name), st') => (Raised_x (Other_error name), st')
    end.

Notation "'let+' x ':=' m 'in' k" := (bind_x m (fun x => k))
  (at level 10, x name, m at level 100, k at level 200).

Definition call_x (r : request) : MX (response r) :=
  fun w st =>
    (api_x w (calls st) r,
     {| resources := resources st; calls := calls st ++ [r] |}).

Definition get_resource_x (k : string) : MX (option string) :=
  fun _ st => (Returned_x (resource k st), st).

Definition get_resources_x : MX (gmap string (option string)) :=
  fun _ st => (Returned_x (resources st), st).

Definition check_s3_bucket_x (self : BlogInfrastructure)
    (status : gmap string value) : MX (gmap string value) :=
  try_except_x
    (let+ _ := call_x (S3_head_bucket (bucket_name self)) in
     ret_x (set_status "s3_bucket" (VStr "exists") status))
    (fun _ => ret_x (set_status "s3_bucket" (VStr "missing") status)).

Definition check_certificate_x (status : gmap string value)
  : MX (gmap string value) :=
  let+ certificate_arn := get_resource_x "certificate_arn" in
  match certificate_arn with
  | Some arn =>
      if truthy certificate_arn
      then
        try_except_x
          (let+ response := call_x (ACM_describe_certificate arn) in
           ret_x (set_status "certificate_status"
                    (VStr (cert_Status response)) status))
          (fun _ =>
             ret_x (set_status "certificate_status" (VStr "error") status))
      else ret_x status
  | None => ret_x status
  end.

Definition check_cloudfront_distribution_x (status : gmap string value)
  : MX (gmap string value) :=
  let+ distribution_id := get_resource_x "distribution_id" in
  match distribution_id with
  | Some id =>
      if truthy distribution_id
      then
        try_except_x
          (let+ response := call_x (CloudFront_get_distribution id) in
           ret_x (set_status "distribution_status"
                    (VStr (dist_Status response)) status))
          (fun _ =>
             ret_x (set_status "distribution_status" (VStr "error") status))
      else ret_x status
  | None => ret_x status
  end.

Definition get_status_x (self : BlogInfrastructure)
  : MX (gmap string value) :=
  let+ copy := get_resources_x in
  let status :=
    <["domain" := VStr (domain_name self)]>
    (<["resources" := VDict copy]> ∅) in
  let+ status := check_s3_bucket_x self status in
  let+ status := check_certificate_x status in
  let+ status := check_cloudfront_distribution_x status in
  ret_x status.

Definition result_of_x {A} (m : MX A) (w : world_x) (st : state)
  : outcome_x A := (m w st).1.

Definition state_after_x {A} (m : MX A) (w : world_x) (st : state) : state :=
  (m w st).2.

(** A provider of the first kind, seen as one of the second. *)
Definition embed_world (w : world) : world_x :=
  {| api_x := fun h r =>
       match api w h r with
       | Returned a => Returned_x a
       | Raised e => Raised_x (Client_error e)
       end |}.

Definition embed_outcome {A} (o : outcome A) : outcome_x A :=
  match o with
  | Returned a => Returned_x a
  | Raised e => Raised_x (Client_error e)
  end.

(** The two models of a computation agree over providers that only raise
    [ClientError]. *)
Definition agrees {A} (mx : MX A) (m : M A) : Prop :=
  forall w st,
    mx (embed_world w) st = (embed_outcome (m w st).1, (m w st).2).

(** A provider whose client refuses an empty bucket name before anything
    is sent, as botocore's parameter validation does, and which accepts
    every other call. *)
Definition validating_world_x : world_x :=
  {| api_x := fun _ r =>
       match bucket_of r with
       | Some b =>
           if String.eqb b ""
           then Raised_x (Other_error "ParamValidationError")
           else Returned_x (accept r)
       | None => Returned_x (accept r)
       end |}.

(** A provider that rejects the calls selected by [rejects] with a
    [ClientError] and accepts the others. *)
Definition rejecting_world_x (rejects : request -> bool) (code : string)
  : world_x :=
  embed_world (rejecting_world rejects code 0).

(** The exception other than [ClientError] an answer carries, if any. *)
Definition other_error_of {A} (o : outcome_x A) : option string :=
  match o with
  | Raised_x (Other_error name) => Some name
  | _ => None
  end.

(** A status field fetched live, over the richer provider. *)
Definition live_status_x {A} (field : A -> string) (o : outcome_x A)
  : value :=
  VStr (match o with
        | Returned_x a => field a
        | Raised_x _ => "error"
        end).

(** The first exception other than [ClientError] met by the queries
    [get_status] makes, in the order it makes them. *)
Definition status_abort (self : BlogInfrastructure) (w : world_x)
    (st : state) : option string :=
  let r_head := S3_head_bucket (bucket_name self) in
  match other_error_of (api_x w (calls st) r_head) with
  | Some name => Some name
  | None =>
      match
        match usable (resource "certificate_arn" st) with
        | Some arn =>
            other_error_of
              (api_x w (calls st ++ [r_head]) (ACM_describe_certificate arn))
        | None => None
        end
      with
      | Some name => Some name
      | None =>
          match usable (resource "distribution_id" st) with
          | Some id =>
              other_error_of
                (api_x w (calls st ++ r_head :: certificate_query st)
                   (CloudFront_get_distribution id))
          | None => None
          end
      end
  end.

(** The object built for the empty domain. *)
Definition empty_domain : BlogInfrastructure := __init__ "" "eu-west-1".

(** ** Stages that do not read the ledger *)

(** A computation is blind to the ledger when the value it returns and
    the calls it logs are the same from any two states with the same call
    log, whatever their ledgers hold. *)
Definition ledger_blind {A} (m : M A) : Prop :=
  forall w st st',
    calls st = calls st' ->
    result_of m w st = result_of m w st'
    /\ calls (state_after m w st) = calls (state_after m w st').

(** ** Proof automation *)

(** Look a literal key up in a dictionary built by assignments. *)
Ltac lookup_status :=
  unfold set_status;
  repeat (rewrite lookup_insert_eq
          || (rewrite lookup_insert_ne by discriminate)
          || rewrite lookup_empty).

Create HintDb orderly.

(** * Properties *)

(** ** Strings *)

Lemma append_nil (t : string) : "" +:+ t = t.
Proof. reflexivity. Qed.

Lemma append_cons (a : ascii) (s t : string) :
  String a s +:+ t = String a (s +:+ t).
Proof. reflexivity. Qed.

Lemma append_inj_r (p s t : string) : p +:+ s = p +:+ t -> s = t.
Proof.
  induction p as [|a p IH]; rewrite ?append_nil, ?append_cons; [easy|].
  intros H. injection H as H. auto.
Qed.

(** [str] is injective on integers: two clock readings print alike only
    when they are the same second. *)
Lemma str_of_int_inj (m n : Z) : str_of_int m = str_of_int n -> m = n.
Proof.
  unfold str_of_int. intros H.
  apply DecimalZ.to_int_inj.
  assert (P : forall z,
             NilZero.int_of_string (NilZero.string_of_int (Z.to_int z))
             = Some (Z.to_int z)).
  { intros z. apply NilZero.isi; destruct z; simpl; try discriminate;
      intros E; injection E as E; exact (Unsigned.to_uint_nonnil _ E). }
  pose proof (P m) as Pm. rewrite H, P in Pm. now injection Pm.
Qed.

Lemma rstrip_decompose (c : ascii) (s : string) :
  exists n, s = rstrip c s +:+ repeat_char c n.
Proof.
  induction s as [|a s [n IH]]; simpl.
  - now exists O.
  - destruct (rstrip c s) as [|b r] eqn:E.
    + destruct (Ascii.eqb_spec a c) as [->|_].
      * exists (S n). rewrite append_nil in *. simpl. now rewrite <- IH.
      * exists n. rewrite append_cons. now rewrite <- IH.
    + exists n. rewrite append_cons. now rewrite <- IH.
Qed.

Lemma rstrip_last (c : ascii) (s : string) : last_char (rstrip c s) <> Some c.
Proof.
  induction s as [|a s IH]; simpl; [easy|].
  destruct (rstrip c s) as [|b r] eqn:E.
  - destruct (Ascii.eqb_spec a c) as [->|N]; simpl; congruence.
  - simpl in *. exact IH.
Qed.

Lemma rstrip_repeat (c : ascii) (n : nat) : rstrip c (repeat_char c n) = "".
Proof.
  induction n as [|n IH]; simpl; [reflexivity|].
  rewrite IH. now rewrite Ascii.eqb_refl.
Qed.

Lemma rstrip_fixed (c : ascii) (d : string) (n : nat) :
  last_char d <> Some c -> rstrip c (d +:+ repeat_char c n) = d.
Proof.
  induction d as [|a d IH]; rewrite ?append_nil, ?append_cons.
  - intros _. apply rstrip_repeat.
  - intros H. destruct d as [|b d].
    + rewrite append_nil in *. simpl. rewrite rstrip_repeat.
      simpl in H.
      destruct (Ascii.eqb_spec a c) as [->|_]; [congruence|reflexivity].
    + pose proof (IH H) as E.
      change (rstrip c (String a (String b d +:+ repeat_char c n)))
        with (match rstrip c (String b d +:+ repeat_char c n) with
              | EmptyString =>
                  if Ascii.eqb a c then EmptyString else String a EmptyString
              | r => String a r
              end).
      now rewrite E.
Qed.

(** What [rstrip] decides: [name] is [d] followed by some number of [c]s,
    and [d] itself does not end in [c]. *)
Lemma rstrip_eq_iff (c : ascii) (name d : string) :
  rstrip c name = d <->
  last_char d <> Some c /\ exists n, name = d +:+ repeat_char c n.
Proof.
  split.
  - intros <-. split; [apply rstrip_last | apply rstrip_decompose].
  - intros [H [n ->]]. now apply rstrip_fixed.
Qed.

(** ** Running the monad *)

Lemma issued_app {A} (m : M A) (w : world) (st : state) (l : list request) :
  calls (state_after m w st) = calls st ++ l -> issued m w st = l.
Proof. unfold issued. intros ->. apply drop_app_length. Qed.

(** *** The ledger only grows, and so does the call log *)

Lemma orderly_ret {A} (a : A) : orderly (ret a).
Proof.
  intros w st. split; [exists []; simpl; now rewrite app_nil_r | done].
Qed.

Lemma orderly_call (r : request) : orderly (call r).
Proof. intros w st. split; [now exists [r] | done]. Qed.

Lemma orderly_time_time : orderly time_time.
Proof.
  intros w st. split; [exists []; simpl; now rewrite app_nil_r | done].
Qed.

Lemma orderly_get_resource (k : string) : orderly (get_resource k).
Proof.
  intros w st. split; [exists []; simpl; now rewrite app_nil_r | done].
Qed.

Lemma orderly_get_resources : orderly get_resources.
Proof.
  intros w st. split; [exists []; simpl; now rewrite app_nil_r | done].
Qed.

Lemma orderly_set_resource (k : string) (v : option string) :
  orderly (set_resource k v).
Proof.
  intros w st. split; [exists []; simpl; now rewrite app_nil_r|].
  unfold state_after, set_resource. simpl. rewrite dom_insert_L.
  set_solver.
Qed.

Lemma orderly_bind {A B} (m : M A) (k : A -> M B) :
  orderly m -> (forall a, orderly (k a)) -> orderly (bind m k).
Proof.
  intros Hm Hk w st. specialize (Hm w st). unfold state_after, bind in *.
  destruct (m w st) as [[a|e] st']; simpl in *; [|exact Hm].
  destruct Hm as [[l1 Hl1] Hd1].
  destruct (Hk a w st') as [[l2 Hl2] Hd2]. unfold state_after in *. split.
  - exists (l1 ++ l2). now rewrite Hl2, Hl1, app_assoc.
  - etrans; eassumption.
Qed.

Lemma orderly_try_except {A} (body : M A) (handler : ClientError -> M A) :
  orderly body -> (forall e, orderly (handler e)) ->
  orderly (try_except body handler).
Proof.
  intros Hm Hk w st. specialize (Hm w st).
  unfold state_after, try_except in *.
  destruct (body w st) as [[a|e] st']; simpl in *; [exact Hm|].
  destruct Hm as [[l1 Hl1] Hd1].
  destruct (Hk e w st') as [[l2 Hl2] Hd2]. unfold state_after in *. split.
  - exists (l1 ++ l2). now rewrite Hl2, Hl1, app_assoc.
  - etrans; eassumption.
Qed.

#[local] Hint Resolve orderly_ret orderly_call orderly_time_time
  orderly_get_resource orderly_get_resources orderly_set_resource : orderly.

(** Walk through a program built from the monad's operations. *)
Ltac orderly :=
  repeat first
    [ apply orderly_bind; [|intros]
    | apply orderly_try_except; [|intros]
    | match goal with
      | |- orderly (if ?b then _ else _) => destruct b
      | |- orderly (match ?x with _ => _ end) => destruct x
      end
    | match goal with
      | |- orderly (call ?r) => exact (orderly_call r)
      end
    | solve [auto with orderly] ].

Lemma orderly_create_s3_bucket self : orderly (create_s3_bucket self).
Proof.
  unfold create_s3_bucket, create_s3_bucket_body, create_s3_bucket_handler.
  orderly.
Qed.

Lemma orderly_request_ssl_certificate self :
  orderly (request_ssl_certificate self).
Proof. unfold request_ssl_certificate. orderly. Qed.

Lemma orderly_get_certificate_validation_records certificate_arn :
  orderly (get_certificate_validation_records certificate_arn).
Proof. unfold get_certificate_validation_records. orderly. Qed.

Lemma orderly_scan_hosted_zones self zones :
  orderly (scan_hosted_zones self zones).
Proof.
  induction zones as [|zone zones IH]; simpl; [auto with orderly|].
  destruct (String.eqb _ _); [orderly | exact IH].
Qed.

Lemma orderly_get_hosted_zone_id self : orderly (get_hosted_zone_id self).
Proof.
  unfold get_hosted_zone_id.
  apply orderly_try_except; [|intros; apply orderly_ret].
  apply orderly_bind; [exact (orderly_call Route53_list_hosted_zones)|].
  intros zones. apply orderly_scan_hosted_zones.
Qed.

Lemma orderly__update_s3_bucket_policy self distribution_id :
  orderly (_update_s3_bucket_policy self distribution_id).
Proof. unfold _update_s3_bucket_policy. orderly. Qed.

Lemma orderly_create_cloudfront_distribution self certificate_arn :
  orderly (create_cloudfront_distribution self certificate_arn).
Proof.
  unfold create_cloudfront_distribution. orderly.
Qed.

Lemma orderly_create_route53_records self cloudfront_domain :
  orderly (create_route53_records self cloudfront_domain).
Proof.
  unfold create_route53_records.
  apply orderly_bind; [apply orderly_get_hosted_zone_id|].
  intros hosted_zone_id. orderly.
Qed.

Lemma orderly_deploy_full_infrastructure self :
  orderly (deploy_full_infrastructure self).
Proof.
  unfold deploy_full_infrastructure.
  apply orderly_bind; [apply orderly_create_s3_bucket|]. intros created.
  destruct created; simpl; [|auto with orderly].
  apply orderly_bind; [apply orderly_request_ssl_certificate|].
  intros certificate_arn. orderly.
Qed.

Lemma orderly_get_status self : orderly (get_status self).
Proof.
  unfold get_status, check_s3_bucket, check_certificate,
    check_cloudfront_distribution.
  orderly.
Qed.

(** The four slots the constructor creates are never deleted. *)
Lemma ledger_slots_kept {A} (m : M A) (self : BlogInfrastructure)
    (w : world) (st : state) :
  orderly m ->
  dom (init_resources self) ⊆ dom (resources st) ->
  dom (init_resources self) ⊆ dom (resources (state_after m w st)).
Proof. intros Hm Hst. etrans; [exact Hst | apply Hm]. Qed.

(** ** The bucket stage *)

Lemma create_bucket_call (self : BlogInfrastructure) :
  (if String.eqb (region_name self) "us-east-1"
   then call (S3_create_bucket (bucket_name self) None)
   else call (S3_create_bucket (bucket_name self) (Some (region_name self))))
  = call (create_bucket_request self).
Proof.
  unfold create_bucket_request.
  now destruct (String.eqb (region_name self) "us-east-1").
Qed.

(** The bucket stage makes at most three calls, stops at the first one the
    provider rejects, and turns that error into its return value. *)
Lemma create_s3_bucket_run (self : BlogInfrastructure) (w : world)
    (st : state) :
  let r1 := create_bucket_request self in
  let r2 := S3_put_bucket_versioning (bucket_name self) "Enabled" in
  let r3 := S3_put_public_access_block (bucket_name self)
              public_access_block in
  create_s3_bucket self w st =
  match api w (calls st) r1 with
  | Raised e => (Returned (already_owned e), with_calls st [r1])
  | Returned _ =>
      match api w (calls st ++ [r1]) r2 with
      | Raised e => (Returned (already_owned e), with_calls st [r1; r2])
      | Returned _ =>
          match api w (calls st ++ [r1; r2]) r3 with
          | Raised e =>
              (Returned (already_owned e), with_calls st [r1; r2; r3])
          | Returned _ => (Returned true, with_calls st [r1; r2; r3])
          end
      end
  end.
Proof.
  intros r1 r2 r3.
  unfold create_s3_bucket, create_s3_bucket_body, create_s3_bucket_handler.
  rewrite create_bucket_call. fold r1 r2 r3.
  unfold try_except, bind, call, ret, with_calls, already_owned. simpl.
  rewrite <- !app_assoc. simpl.
  destruct (api w (calls st) r1) as [[]|e1]; simpl.
  - destruct (api w (calls st ++ [r1]) r2) as [[]|e2]; simpl.
    + destruct (api w (calls st ++ [r1; r2]) r3) as [[]|e3]; simpl.
      * reflexivity.
      * now destruct (String.eqb (error_code e3) _).
    + now destruct (String.eqb (error_code e2) _).
  - now destruct (String.eqb (error_code e1) _).
Qed.

Lemma create_s3_bucket_result (self : BlogInfrastructure) (w : world)
    (st : state) :
  result_of (create_s3_bucket self) w st
  = Returned (match bucket_stage_error self w st with
              | None => true
              | Some e => already_owned e
              end).
Proof.
  unfold result_of, bucket_stage_error. rewrite create_s3_bucket_run.
  repeat match goal with
         | |- context [api ?w ?h ?r] => destruct (api w h r); simpl
         end; reflexivity.
Qed.

Lemma create_s3_bucket_issued (self : BlogInfrastructure) (w : world)
    (st : state) :
  exists l, calls (state_after (create_s3_bucket self) w st) = calls st ++ l
            /\ forallb is_s3_call l = true
            /\ resources (state_after (create_s3_bucket self) w st)
               = resources st.
Proof.
  unfold state_after. rewrite create_s3_bucket_run.
  repeat match goal with
         | |- context [api ?w ?h ?r] => destruct (api w h r); simpl
         end; eexists; (split; [reflexivity|]); split; reflexivity.
Qed.

(** C6.  [create_s3_bucket] never raises; it returns [True] when the
    provider accepts the three calls of the stage (bucket newly created and
    configured) and when the error the provider reports is
    [BucketAlreadyOwnedByYou], and [False] for every other provider
    error.  Re-running on a bucket the caller owns, where [create_bucket]
    itself is rejected with that code, returns [True]. *)
Theorem create_s3_bucket_success_or_owned (self : BlogInfrastructure)
    (w : world) (st : state) :
  (bucket_stage_error self w st = None ->
   result_of (create_s3_bucket self) w st = Returned true)
  /\ (forall e, bucket_stage_error self w st = Some e ->
       error_code e = "BucketAlreadyOwnedByYou" ->
       result_of (create_s3_bucket self) w st = Returned true)
  /\ (forall e, bucket_stage_error self w st = Some e ->
       error_code e <> "BucketAlreadyOwnedByYou" ->
       result_of (create_s3_bucket self) w st = Returned false)
  /\ (forall e, api w (calls st) (create_bucket_request self) = Raised e ->
       error_code e = "BucketAlreadyOwnedByYou" ->
       result_of (create_s3_bucket self) w st = Returned true
       /\ issued (create_s3_bucket self) w st = [create_bucket_request self]).
Proof.
  rewrite create_s3_bucket_result.
  split; [now intros ->|].
  split.
  { intros e -> H. unfold already_owned. rewrite H. reflexivity. }
  split.
  { intros e -> H. unfold already_owned.
    now apply String.eqb_neq in H as ->. }
  intros e E H. unfold bucket_stage_error. rewrite E.
  unfold already_owned. rewrite H. split; [reflexivity|].
  apply issued_app. unfold state_after. rewrite create_s3_bucket_run, E.
  reflexivity.
Qed.

(** ** The certificate stage *)

(** The certificate stage makes one call; the identifier the provider
    returns goes into the ledger and back to the caller. *)
Lemma request_ssl_certificate_run (self : BlogInfrastructure) (w : world)
    (st : state) :
  let r := ACM_request_certificate (certificate_request self) in
  request_ssl_certificate self w st =
  match api w (calls st) r with
  | Returned arn =>
      (Returned (Some arn),
       with_resource "certificate_arn" (Some arn) (with_calls st [r]))
  | Raised _ => (Returned None, with_calls st [r])
  end.
Proof.
  intros r. unfold request_ssl_certificate, try_except, bind, call, ret,
    set_resource, with_resource, with_calls. fold r. simpl.
  now destruct (api w (calls st) r).
Qed.

Lemma request_ssl_certificate_calls (self : BlogInfrastructure) (w : world)
    (st : state) :
  calls (state_after (request_ssl_certificate self) w st)
  = calls st ++ [ACM_request_certificate (certificate_request self)].
Proof.
  unfold state_after. rewrite request_ssl_certificate_run.
  now destruct (api w (calls st) _).
Qed.

(** C2 (as amended).  For every apex domain [D], [request_ssl_certificate]
    issues exactly one certificate request and no other call.  The request
    uses DNS validation, has primary domain name [D] and subject
    alternative names exactly ["www." + D], so that the names it covers
    (the primary name followed by the alternative names) are exactly [D]
    and ["www." + D].  For "example.com" the [SubjectAlternativeNames]
    sent are ["www.example.com"] and the covered names are
    ["example.com"; "www.example.com"]. *)
Theorem request_ssl_certificate_one_dns_request (D region : string)
    (w : world) (st : state) :
  let req := certificate_request (__init__ D region) in
  issued (request_ssl_certificate (__init__ D region)) w st
  = [ACM_request_certificate req]
  /\ cr_ValidationMethod req = "DNS"
  /\ cr_DomainName req = D
  /\ cr_SubjectAlternativeNames req = ["www." +:+ D]
  /\ covered_names req = [D; "www." +:+ D]
  /\ cr_SubjectAlternativeNames
       (certificate_request (__init__ "example.com" region))
     = ["www.example.com"]
  /\ covered_names (certificate_request (__init__ "example.com" region))
     = ["example.com"; "www.example.com"].
Proof.
  intros req. split.
  - apply issued_app, request_ssl_certificate_calls.
  - repeat split; reflexivity.
Qed.

(** The names sent as [SubjectAlternativeNames] for "example.com" are not
    the two-element list the specification gives: the apex domain travels
    as [DomainName]. *)
Lemma request_ssl_certificate_sans_example :
  map cr_SubjectAlternativeNames
    (certificate_requests
       (issued (request_ssl_certificate example_com)
          (accepting_world 0) (init_state example_com)))
  <> [["example.com"; "www.example.com"]].
Proof. vm_compute. discriminate. Qed.

(** ** The deployment pipeline *)

Lemma s3_calls_no_certificate_request (l : list request) :
  forallb is_s3_call l = true -> certificate_requests l = [].
Proof.
  induction l as [|r l IH]; simpl; [reflexivity|].
  intros H. apply andb_true_iff in H as [Hr Hl].
  destruct r; try discriminate; simpl; auto.
Qed.

(** C5.  When a stage of [deploy_full_infrastructure] fails hard, the
    pipeline returns the failure report naming that stage and makes no call
    beyond those of the stages up to it.  In particular, when bucket
    creation meets a provider error other than [BucketAlreadyOwnedByYou],
    the report names "S3 bucket creation" and no certificate request is
    ever issued. *)
Theorem deploy_halts_at_first_failure (self : BlogInfrastructure)
    (w : world) (st : state) (s : stage)
    (H : stage_fails self w st s) :
  result_of (deploy_full_infrastructure self) w st
  = Returned (failure_report s)
  /\ issued (deploy_full_infrastructure self) w st
     = issued_through self w st s
  /\ certificate_requests (issued (deploy_full_infrastructure self) w st)
     = match s with
       | StageBucket => []
       | StageCertificate => [certificate_request self]
       end.
Proof.
  destruct (create_s3_bucket_issued self w st) as (l1 & Hl1 & Hs3 & _).
  pose proof (create_s3_bucket_result self w st) as Hres.
  pose proof (issued_app _ _ _ _ Hl1) as Hi1.
  unfold issued_through. rewrite Hi1.
  destruct s; simpl in H.
  - destruct H as (e & He & Hcode). rewrite He in Hres.
    unfold already_owned in Hres.
    apply String.eqb_neq in Hcode. rewrite Hcode in Hres.
    unfold issued, result_of, state_after in *.
    unfold deploy_full_infrastructure, bind.
    destruct (create_s3_bucket self w st) as [r1 st1].
    simpl in *. subst r1. simpl. rewrite Hi1.
    split; [reflexivity|]. split; [reflexivity|].
    now apply s3_calls_no_certificate_request.
  - destruct H as (Hok & c & Hc & Hfalsy). clear Hres.
    pose proof (request_ssl_certificate_calls self w
                  (state_after (create_s3_bucket self) w st)) as Hl2.
    unfold issued, result_of, state_after in *.
    unfold deploy_full_infrastructure, bind.
    destruct (create_s3_bucket self w st) as [r1 st1].
    simpl in *. subst r1. simpl.
    destruct (request_ssl_certificate self w st1) as [r2 st2].
    simpl in *. subst r2.
    assert (Hd : drop (length (calls st)) (calls st2)
                 = l1 ++ [ACM_request_certificate (certificate_request self)]).
    { rewrite Hl2, Hl1, <- app_assoc. apply drop_app_length. }
    assert (Hi2 : drop (length (calls st1)) (calls st2)
                  = [ACM_request_certificate (certificate_request self)]).
    { rewrite Hl2. apply drop_app_length. }
    rewrite Hi2.
    assert (Hcr : certificate_requests
                    (l1 ++ [ACM_request_certificate (certificate_request self)])
                  = [certificate_request self]).
    { unfold certificate_requests. rewrite omap_app.
      fold (certificate_requests l1).
      now rewrite (s3_calls_no_certificate_request l1 Hs3). }
    destruct c as [arn|]; simpl in *.
    + rewrite Hfalsy. simpl. rewrite Hd. auto.
    + simpl. rewrite Hd. auto.
Qed.

(** ** The hosted-zone resolver *)

Lemma zone_matchesb_spec (self : BlogInfrastructure) (zone : HostedZone) :
  zone_matchesb self zone = true <-> zone_matches self zone.
Proof. unfold zone_matchesb, zone_matches. apply String.eqb_eq. Qed.

(** A zone matches exactly when its name is the apex domain followed by
    any number of dots, the apex domain itself not ending in a dot. *)
Lemma zone_matches_iff (self : BlogInfrastructure) (zone : HostedZone) :
  zone_matches self zone <->
  last_char (domain_name self) <> Some "."%char
  /\ exists n, hz_Name zone = domain_name self +:+ repeat_char "." n.
Proof. apply rstrip_eq_iff. Qed.

Lemma first_matching_zone_split (self : BlogInfrastructure)
    (pre post : list HostedZone) (zone : HostedZone) :
  Forall (fun z => ~ zone_matches self z) pre ->
  zone_matches self zone ->
  first_matching_zone self (pre ++ zone :: post) = Some zone.
Proof.
  unfold first_matching_zone. intros Hpre Hz.
  induction Hpre as [|z pre Hn _ IH]; simpl.
  - apply zone_matchesb_spec in Hz. now rewrite Hz.
  - destruct (zone_matchesb self z) eqn:E; [|exact IH].
    apply zone_matchesb_spec in E. contradiction.
Qed.

Lemma first_matching_zone_none (self : BlogInfrastructure)
    (zones : list HostedZone) :
  Forall (fun z => ~ zone_matches self z) zones ->
  first_matching_zone self zones = None.
Proof.
  unfold first_matching_zone.
  induction 1 as [|z zones Hn _ IH]; simpl; [reflexivity|].
  destruct (zone_matchesb self z) eqn:E; [|exact IH].
  apply zone_matchesb_spec in E. contradiction.
Qed.

(** The loop returns at the first zone that passes the test and records
    its identifier; it makes no provider call. *)
Lemma scan_hosted_zones_run (self : BlogInfrastructure)
    (zones : list HostedZone) (w : world) (st : state) :
  scan_hosted_zones self zones w st =
  match first_matching_zone self zones with
  | Some zone =>
      (Returned (Some (hz_Id zone)),
       with_resource "hosted_zone_id" (Some (hz_Id zone)) st)
  | None => (Returned None, st)
  end.
Proof.
  unfold first_matching_zone.
  induction zones as [|zone zones IH]; simpl; [reflexivity|].
  fold (zone_matchesb self zone).
  destruct (zone_matchesb self zone); [reflexivity | exact IH].
Qed.

Lemma get_hosted_zone_id_run (self : BlogInfrastructure) (w : world)
    (st : state) :
  get_hosted_zone_id self w st =
  (Returned (resolved_zone self w st),
   match resolved_zone self w st with
   | Some id =>
       with_resource "hosted_zone_id" (Some id)
         (with_calls st [Route53_list_hosted_zones])
   | None => with_calls st [Route53_list_hosted_zones]
   end).
Proof.
  unfold get_hosted_zone_id, resolved_zone, try_except, bind, call. simpl.
  destruct (api w (calls st) Route53_list_hosted_zones) as [zones|e];
    simpl; [|reflexivity].
  rewrite scan_hosted_zones_run.
  now destruct (first_matching_zone self zones).
Qed.

(** C8.  Given the list of hosted zones the provider returns,
    [get_hosted_zone_id] returns the identifier of the first zone in the
    list whose name with its trailing dots removed equals the apex domain,
    and returns [None], as an ordinary value, when no zone in the list
    matches.  It never raises: a provider error on the listing also gives
    [None]. *)
Theorem get_hosted_zone_id_first_match (self : BlogInfrastructure)
    (w : world) (st : state) :
  (forall zones pre zone post,
     api w (calls st) Route53_list_hosted_zones = Returned zones ->
     zones = pre ++ zone :: post ->
     Forall (fun z => rstrip "." (hz_Name z) <> domain_name self) pre ->
     rstrip "." (hz_Name zone) = domain_name self ->
     result_of (get_hosted_zone_id self) w st = Returned (Some (hz_Id zone)))
  /\ (forall zones,
       api w (calls st) Route53_list_hosted_zones = Returned zones ->
       Forall (fun z => rstrip "." (hz_Name z) <> domain_name self) zones ->
       result_of (get_hosted_zone_id self) w st = Returned None)
  /\ (forall e,
       api w (calls st) Route53_list_hosted_zones = Raised e ->
       result_of (get_hosted_zone_id self) w st = Returned None)
  /\ (exists id, result_of (get_hosted_zone_id self) w st = Returned id).
Proof.
  unfold result_of. rewrite get_hosted_zone_id_run. simpl.
  unfold resolved_zone.
  split; [|split; [|split]].
  - intros zones pre zone post -> -> Hpre Hz.
    now rewrite (first_matching_zone_split self pre post zone Hpre Hz).
  - intros zones -> Hnone.
    now rewrite (first_matching_zone_none self zones Hnone).
  - now intros e ->.
  - eauto.
Qed.

(** ** The DNS record publisher *)

(** Every way a run of [create_route53_records] can go: no usable zone;
    the apex upsert rejected; or both upserts issued. *)
Lemma create_route53_records_cases (self : BlogInfrastructure)
    (cloudfront_domain : string) (w : world) (st : state) :
  let m := create_route53_records self cloudfront_domain in
  let list_zones := Route53_list_hosted_zones in
  let upsert zone_id name :=
    Route53_change_resource_record_sets zone_id
      (alias_change name cloudfront_domain) in
  (truthy (resolved_zone self w st) = false
   /\ result_of m w st = Returned false
   /\ issued m w st = [list_zones])
  \/ (exists zone_id e,
        resolved_zone self w st = Some zone_id /\ zone_id <> ""
        /\ api w (calls st ++ [list_zones])
             (upsert zone_id (domain_name self)) = Raised e
        /\ result_of m w st = Returned false
        /\ issued m w st = [list_zones; upsert zone_id (domain_name self)])
  \/ (exists zone_id,
        resolved_zone self w st = Some zone_id /\ zone_id <> ""
        /\ api w (calls st ++ [list_zones])
             (upsert zone_id (domain_name self)) = Returned tt
        /\ result_of m w st
           = Returned
               (match api w (calls st ++ [list_zones;
                                          upsert zone_id (domain_name self)])
                        (upsert zone_id (www_domain self)) with
                | Returned _ => true
                | Raised _ => false
                end)
        /\ issued m w st = [list_zones; upsert zone_id (domain_name self);
                           upsert zone_id (www_domain self)]).
Proof.
  intros m list_zones upsert. subst m.
  unfold issued, result_of, state_after, create_route53_records, bind.
  rewrite get_hosted_zone_id_run.
  destruct (resolved_zone self w st) as [zone_id|] eqn:Ez; simpl.
  2: { left. split; [reflexivity|]. split; [reflexivity|].
       apply drop_app_length. }
  destruct (String.eqb_spec zone_id "") as [->|Hne]; simpl.
  { left. split; [reflexivity|]. split; [reflexivity|].
    apply drop_app_length. }
  right.
  unfold try_except, bind, call, ret. simpl.
  fold list_zones. fold (upsert zone_id (domain_name self)).
  fold (upsert zone_id (www_domain self)).
  rewrite <- !app_assoc. simpl.
  destruct (api w (calls st ++ [list_zones])
              (upsert zone_id (domain_name self))) as [[]|e1] eqn:E1; simpl.
  - right. exists zone_id. split; [reflexivity|]. split; [exact Hne|].
    split; [exact E1|].
    destruct (api w _ (upsert zone_id (www_domain self))) as [[]|e2]; simpl;
      (split; [reflexivity|]; apply drop_app_length).
  - left. exists zone_id, e1. split; [reflexivity|]. split; [exact Hne|].
    split; [exact E1|]. split; [reflexivity|]. apply drop_app_length.
Qed.

(** C9.  Whatever the provider answers, every record set
    [create_route53_records] submits is an A-type alias record whose
    target is the CloudFront domain passed in and whose target zone is
    the fixed constant Z2FDTNDATAQYW2, each submitted as an UPSERT.  When
    the hosted zone resolves and the provider accepts the first change,
    exactly two such upserts are issued, to the resolved zone: one named
    for the apex domain, then one for the www subdomain. *)
Theorem create_route53_records_two_alias_upserts (D region : string)
    (cloudfront_domain : string) (w : world) (st : state) :
  let self := __init__ D region in
  let m := create_route53_records self cloudfront_domain in
  Forall (fun '(_, batch) =>
            exists name,
              cb_Changes batch
              = [ {| change_Action := "UPSERT";
                     change_ResourceRecordSet :=
                       alias_record_set name cloudfront_domain |} ])
    (change_requests (issued m w st))
  /\ (forall zone_id,
        resolved_zone self w st = Some zone_id -> zone_id <> "" ->
        api w (calls st ++ [Route53_list_hosted_zones])
          (Route53_change_resource_record_sets zone_id
             (alias_change D cloudfront_domain)) = Returned tt ->
        map fst (change_requests (issued m w st)) = [zone_id; zone_id]
        /\ record_sets (issued m w st)
           = [ alias_record_set D cloudfront_domain;
               alias_record_set ("www." +:+ D) cloudfront_domain ])
  /\ (result_of m w st = Returned true ->
      record_sets (issued m w st)
      = [ alias_record_set D cloudfront_domain;
          alias_record_set ("www." +:+ D) cloudfront_domain ]).
Proof.
  intros self m.
  destruct (create_route53_records_cases self cloudfront_domain w st)
    as [(Hz & Hr & Hi) | [(z & e & Hz & Hne & Ha & Hr & Hi)
                         | (z & Hz & Hne & Ha & Hr & Hi)]];
    fold m in Hr, Hi; rewrite Hi; simpl.
  - split; [constructor|]. split.
    + intros zone_id Hzid Hn. rewrite Hzid in Hz. simpl in Hz.
      apply String.eqb_neq in Hn. rewrite Hn in Hz. discriminate.
    + rewrite Hr. discriminate.
  - split; [repeat constructor; eexists; reflexivity|]. split.
    + intros zone_id Hzid Hn Hacc. rewrite Hz in Hzid.
      injection Hzid as <-. simpl in Ha. rewrite Ha in Hacc. discriminate.
    + rewrite Hr. discriminate.
  - split; [repeat constructor; eexists; reflexivity|]. split.
    + intros zone_id Hzid Hn Hacc. rewrite Hz in Hzid.
      injection Hzid as <-. split; reflexivity.
    + intros _. reflexivity.
Qed.

(** C10.  [create_route53_records] starts every run by listing the hosted
    zones.  If the listing contains no zone matching the apex domain (or
    fails), the operation returns [False] and the listing is the only
    call it makes: no change request is issued. *)
Theorem create_route53_records_without_zone (self : BlogInfrastructure)
    (cloudfront_domain : string) (w : world) (st : state) :
  let m := create_route53_records self cloudfront_domain in
  (exists rest, issued m w st = Route53_list_hosted_zones :: rest)
  /\ ((forall zones,
         api w (calls st) Route53_list_hosted_zones = Returned zones ->
         Forall (fun z => rstrip "." (hz_Name z) <> domain_name self) zones) ->
      result_of m w st = Returned false
      /\ issued m w st = [Route53_list_hosted_zones]
      /\ change_requests (issued m w st) = []).
Proof.
  intros m.
  destruct (create_route53_records_cases self cloudfront_domain w st)
    as [(Hz & Hr & Hi) | [(z & e & Hz & Hne & Ha & Hr & Hi)
                         | (z & Hz & Hne & Ha & Hr & Hi)]];
    fold m in Hr, Hi; rewrite Hi; (split; [eauto|]); intros Hnone.
  - rewrite Hr. auto.
  - exfalso. unfold resolved_zone in Hz.
    destruct (api w (calls st) Route53_list_hosted_zones) as [zones|];
      [|discriminate].
    rewrite (first_matching_zone_none self zones (Hnone zones eq_refl)) in Hz.
    discriminate.
  - exfalso. unfold resolved_zone in Hz.
    destruct (api w (calls st) Route53_list_hosted_zones) as [zones|];
      [|discriminate].
    rewrite (first_matching_zone_none self zones (Hnone zones eq_refl)) in Hz.
    discriminate.
Qed.

(** ** The distribution provisioner *)

Lemma _update_s3_bucket_policy_run (self : BlogInfrastructure)
    (distribution_id : string) (w : world) (st : state) :
  _update_s3_bucket_policy self distribution_id w st =
  match api w (calls st) STS_get_caller_identity with
  | Raised e => (Raised e, with_calls st [STS_get_caller_identity])
  | Returned account =>
      (Returned tt,
       with_calls st
         [ STS_get_caller_identity;
           S3_put_bucket_policy (bucket_name self)
             (bucket_policy self account distribution_id) ])
  end.
Proof.
  unfold _update_s3_bucket_policy, try_except, bind, call, ret, with_calls.
  simpl.
  destruct (api w (calls st) STS_get_caller_identity) as [account|e];
    simpl; [|reflexivity].
  rewrite <- ?app_assoc. simpl.
  now destruct (api w _ (S3_put_bucket_policy _ _)) as [[]|e].
Qed.

(** A run of [create_cloudfront_distribution], call by call.  The ledger is
    written once the distribution exists; an STS failure while the bucket
    policy is being built is caught by the enclosing handler. *)
Lemma create_cloudfront_distribution_run (self : BlogInfrastructure)
    (certificate_arn : string) (w : world) (st : state) :
  let r_oac := create_oac_request self in
  let r_dist oac_id :=
    CloudFront_create_distribution
      (distribution_config self certificate_arn oac_id (clock w)) in
  let r_sts := STS_get_caller_identity in
  let written d l :=
    {| resources :=
         <["cloudfront_domain" := Some (dist_DomainName d)]>
           (<["distribution_id" := Some (dist_Id d)]> (resources st));
       calls := calls st ++ l |} in
  create_cloudfront_distribution self certificate_arn w st =
  match api w (calls st) r_oac with
  | Raised _ => (Returned None, with_calls st [r_oac])
  | Returned oac_id =>
      match api w (calls st ++ [r_oac]) (r_dist oac_id) with
      | Raised _ => (Returned None, with_calls st [r_oac; r_dist oac_id])
      | Returned d =>
          match api w (calls st ++ [r_oac; r_dist oac_id]) r_sts with
          | Raised _ =>
              (Returned None, written d [r_oac; r_dist oac_id; r_sts])
          | Returned account =>
              (Returned (Some (dist_Id d)),
               written d
                 [ r_oac; r_dist oac_id; r_sts;
                   S3_put_bucket_policy (bucket_name self)
                     (bucket_policy self account (dist_Id d)) ])
          end
      end
  end.
Proof.
  intros r_oac r_dist r_sts written.
  unfold create_cloudfront_distribution.
  unfold try_except at 1. unfold bind at 1. unfold call at 1.
  fold (create_oac_request self). fold r_oac. simpl.
  destruct (api w (calls st) r_oac) as [oac_id|e]; simpl; [|reflexivity].
  unfold bind at 1. unfold time_time. simpl.
  unfold bind at 1. unfold call at 1. simpl. fold (r_dist oac_id).
  rewrite <- ?app_assoc. simpl.
  destruct (api w (calls st ++ [r_oac]) (r_dist oac_id)) as [d|e]; simpl;
    [|reflexivity].
  unfold bind, set_resource, ret. simpl.
  rewrite _update_s3_bucket_policy_run. simpl. fold r_sts.
  destruct (api w (calls st ++ [r_oac; r_dist oac_id]) r_sts)
    as [account|e]; simpl; unfold written, with_calls; simpl;
    rewrite <- ?app_assoc; reflexivity.
Qed.

Lemma create_cloudfront_distribution_issued (self : BlogInfrastructure)
    (certificate_arn : string) (w : world) (st : state) :
  let r_oac := create_oac_request self in
  let r_dist oac_id :=
    CloudFront_create_distribution
      (distribution_config self certificate_arn oac_id (clock w)) in
  let r_sts := STS_get_caller_identity in
  issued (create_cloudfront_distribution self certificate_arn) w st =
  match api w (calls st) r_oac with
  | Raised _ => [r_oac]
  | Returned oac_id =>
      match api w (calls st ++ [r_oac]) (r_dist oac_id) with
      | Raised _ => [r_oac; r_dist oac_id]
      | Returned d =>
          match api w (calls st ++ [r_oac; r_dist oac_id]) r_sts with
          | Raised _ => [r_oac; r_dist oac_id; r_sts]
          | Returned account =>
              [ r_oac; r_dist oac_id; r_sts;
                S3_put_bucket_policy (bucket_name self)
                  (bucket_policy self account (dist_Id d)) ]
          end
      end
  end.
Proof.
  cbv zeta. apply issued_app. unfold state_after.
  rewrite create_cloudfront_distribution_run. cbv zeta.
  destruct (api w (calls st) (create_oac_request self)) as [oac_id|];
    [|reflexivity].
  destruct (api w _ (CloudFront_create_distribution _)) as [d|];
    [|reflexivity].
  now destruct (api w _ STS_get_caller_identity).
Qed.

(** The distribution configurations a run submits: none if the
    origin-access-control could not be created, otherwise the one built
    from the certificate passed in, the identifier the provider gave the
    origin-access-control, and the clock. *)
Lemma create_cloudfront_distribution_configs (self : BlogInfrastructure)
    (certificate_arn : string) (w : world) (st : state) :
  distribution_configs
    (issued (create_cloudfront_distribution self certificate_arn) w st)
  = match api w (calls st) (create_oac_request self) with
    | Returned oac_id =>
        [distribution_config self certificate_arn oac_id (clock w)]
    | Raised _ => []
    end.
Proof.
  rewrite create_cloudfront_distribution_issued.
  destruct (api w (calls st) (create_oac_request self)) as [oac_id|];
    [|reflexivity].
  destruct (api w _ (CloudFront_create_distribution _)) as [d|];
    [|reflexivity].
  now destruct (api w _ STS_get_caller_identity).
Qed.

(** Every run submits the same origin-access-control configuration. *)
Lemma create_cloudfront_distribution_oac (self : BlogInfrastructure)
    (certificate_arn : string) (w : world) (st : state) :
  oac_configs
    (issued (create_cloudfront_distribution self certificate_arn) w st)
  = [origin_access_control_config self].
Proof.
  rewrite create_cloudfront_distribution_issued.
  destruct (api w (calls st) (create_oac_request self)) as [oac_id|];
    [|reflexivity].
  destruct (api w _ (CloudFront_create_distribution _)) as [d|];
    [|reflexivity].
  now destruct (api w _ STS_get_caller_identity).
Qed.

(** C3.  For every apex domain [D], the distribution configuration that
    [create_cloudfront_distribution] builds and submits has aliases exactly
    [D; "www." + D], default root object "index.html", viewer protocol
    policy "redirect-to-https", a viewer certificate that is the given
    certificate identifier with SNI-only delivery and minimum protocol
    version TLSv1.2_2021, and price class PriceClass_100 (North America
    and Europe).  A configuration is submitted as soon as the
    origin-access-control has been created. *)
Theorem distribution_config_contents (D region certificate_arn : string)
    (w : world) (st : state) :
  let self := __init__ D region in
  let submitted :=
    distribution_configs
      (issued (create_cloudfront_distribution self certificate_arn) w st) in
  Forall (fun cfg =>
            dc_Aliases cfg
            = {| aliases_Quantity := 2;
                 aliases_Items := [D; "www." +:+ D] |}
            /\ dc_DefaultRootObject cfg = "index.html"
            /\ dcb_ViewerProtocolPolicy (dc_DefaultCacheBehavior cfg)
               = "redirect-to-https"
            /\ dc_ViewerCertificate cfg
               = {| vc_ACMCertificateArn := certificate_arn;
                    vc_SSLSupportMethod := "sni-only";
                    vc_MinimumProtocolVersion := "TLSv1.2_2021" |}
            /\ dc_PriceClass cfg = "PriceClass_100")
    submitted
  /\ length submitted
     = match api w (calls st) (create_oac_request self) with
       | Returned _ => 1%nat
       | Raised _ => 0%nat
       end
  /\ aliases_Items
       (dc_Aliases
          (distribution_config (__init__ "example.com" region) certificate_arn
             "" 0))
     = ["example.com"; "www.example.com"].
Proof.
  intros self submitted. subst submitted.
  rewrite create_cloudfront_distribution_configs.
  destruct (api w (calls st) (create_oac_request self)) as [oac_id|].
  - split; [|split; reflexivity].
    constructor; [|constructor]. repeat split; reflexivity.
  - split; [constructor|split; reflexivity].
Qed.

(** Two distribution configurations built at different seconds differ, in
    their [CallerReference]. *)
Lemma distribution_config_clock (self : BlogInfrastructure)
    (certificate_arn oac1 oac2 : string) (t1 t2 : Z) :
  distribution_config self certificate_arn oac1 t1
  = distribution_config self certificate_arn oac2 t2 ->
  t1 = t2.
Proof.
  intros H. apply (f_equal dc_CallerReference) in H. simpl in H.
  apply append_inj_r in H. apply (append_inj_r "-") in H.
  now apply str_of_int_inj.
Qed.

(** C4 (as amended).  For a fixed apex domain and certificate identifier,
    any two runs of [create_cloudfront_distribution] submit the same
    origin-access-control configuration.  They submit the same distribution
    configuration when the provider answers the origin-access-control
    creation alike and the clock reads the same second in both; when both
    runs get their origin-access-control and the clock readings differ, the
    distribution configurations differ. *)
Theorem create_cloudfront_distribution_two_runs (self : BlogInfrastructure)
    (certificate_arn : string) (w1 w2 : world) (st1 st2 : state) :
  let m := create_cloudfront_distribution self certificate_arn in
  oac_configs (issued m w1 st1) = oac_configs (issued m w2 st2)
  /\ (api w1 (calls st1) (create_oac_request self)
      = api w2 (calls st2) (create_oac_request self) ->
      clock w1 = clock w2 ->
      distribution_configs (issued m w1 st1)
      = distribution_configs (issued m w2 st2))
  /\ (forall oac1 oac2,
        api w1 (calls st1) (create_oac_request self) = Returned oac1 ->
        api w2 (calls st2) (create_oac_request self) = Returned oac2 ->
        clock w1 <> clock w2 ->
        distribution_configs (issued m w1 st1)
        <> distribution_configs (issued m w2 st2)).
Proof.
  intros m. subst m.
  rewrite !create_cloudfront_distribution_oac.
  rewrite !create_cloudfront_distribution_configs.
  split; [reflexivity|]. split.
  - now intros -> ->.
  - intros oac1 oac2 -> -> Hclock H. apply Hclock.
    apply (f_equal head) in H. simpl in H.
    assert (E : forall a b : DistributionConfig, Some a = Some b -> a = b)
      by (intros a b [= ->]; reflexivity).
    apply E in H. now apply distribution_config_clock in H.
Qed.

(** Two runs one second apart, against a provider that answers alike,
    submit different distribution configurations. *)
Lemma create_cloudfront_distribution_not_deterministic :
  let m := create_cloudfront_distribution example_com sample_certificate_arn in
  distribution_configs
    (issued m (accepting_world 1700000000) (init_state example_com))
  <> distribution_configs
       (issued m (accepting_world 1700000001) (init_state example_com)).
Proof. vm_compute. discriminate. Qed.

(** *** Stages that do not read the ledger *)

Lemma ledger_blind_ret {A} (a : A) : ledger_blind (ret a).
Proof. intros w st st' H. now split. Qed.

Lemma ledger_blind_call (r : request) : ledger_blind (call r).
Proof.
  intros w st st' H. unfold result_of, state_after, call. simpl.
  now rewrite H.
Qed.

Lemma ledger_blind_time_time : ledger_blind time_time.
Proof. intros w st st' H. now split. Qed.

Lemma ledger_blind_set_resource k v : ledger_blind (set_resource k v).
Proof. intros w st st' H. now split. Qed.

Lemma ledger_blind_bind {A B} (m : M A) (k : A -> M B) :
  ledger_blind m -> (forall a, ledger_blind (k a)) ->
  ledger_blind (bind m k).
Proof.
  intros Hm Hk w st st' H. destruct (Hm w st st' H) as [Hr Hc].
  unfold result_of, state_after, bind in *.
  destruct (m w st) as [r1 st1], (m w st') as [r1' st1']. simpl in *.
  subst r1'. destruct r1 as [a|e]; [|now split].
  apply (Hk a w st1 st1' Hc).
Qed.

Lemma ledger_blind_try_except {A} (body : M A)
    (handler : ClientError -> M A) :
  ledger_blind body -> (forall e, ledger_blind (handler e)) ->
  ledger_blind (try_except body handler).
Proof.
  intros Hm Hk w st st' H. destruct (Hm w st st' H) as [Hr Hc].
  unfold result_of, state_after, try_except in *.
  destruct (body w st) as [r1 st1], (body w st') as [r1' st1']. simpl in *.
  subst r1'. destruct r1 as [a|e]; [now split|].
  apply (Hk e w st1 st1' Hc).
Qed.

(** Walk through a program that never looks a slot up. *)
Ltac ledger_blind :=
  repeat match goal with
    | |- ledger_blind (try_except _ _) =>
        apply ledger_blind_try_except; [|intros]
    | |- ledger_blind (bind _ _) => apply ledger_blind_bind; [|intros]
    | |- ledger_blind (ret _) => apply ledger_blind_ret
    | |- ledger_blind (call _) => apply ledger_blind_call
    | |- ledger_blind time_time => apply ledger_blind_time_time
    | |- ledger_blind (set_resource _ _) => apply ledger_blind_set_resource
    | |- ledger_blind (if ?b then _ else _) => destruct b
    | |- ledger_blind (match ?x with _ => _ end) => destruct x
    end.

Lemma ledger_blind__update_s3_bucket_policy self distribution_id :
  ledger_blind (_update_s3_bucket_policy self distribution_id).
Proof. unfold _update_s3_bucket_policy. ledger_blind. Qed.

Lemma ledger_blind_create_cloudfront_distribution self certificate_arn :
  ledger_blind (create_cloudfront_distribution self certificate_arn).
Proof.
  unfold create_cloudfront_distribution. ledger_blind.
  apply ledger_blind__update_s3_bucket_policy.
Qed.

Lemma ledger_blind_scan_hosted_zones self zones :
  ledger_blind (scan_hosted_zones self zones).
Proof.
  induction zones as [|zone zones IH]; simpl; [apply ledger_blind_ret|].
  destruct (String.eqb _ _); [ledger_blind | exact IH].
Qed.

Lemma ledger_blind_create_route53_records self cloudfront_domain :
  ledger_blind (create_route53_records self cloudfront_domain).
Proof.
  unfold create_route53_records, get_hosted_zone_id.
  apply ledger_blind_bind.
  - apply ledger_blind_try_except; [|intros; apply ledger_blind_ret].
    apply ledger_blind_bind; [apply ledger_blind_call|].
    intros zones. apply ledger_blind_scan_hosted_zones.
  - intros hosted_zone_id. ledger_blind.
Qed.

(** C1 (as amended).  Each later stage uses the identifier passed to it
    as its argument, whatever the ledger holds: the viewer certificate of
    every distribution configuration submitted is the [certificate_arn]
    argument; the source ARN in the condition of every bucket policy
    submitted by [_update_s3_bucket_policy] ends in its [distribution_id]
    argument; the alias target of every DNS record submitted is the
    [cloudfront_domain] argument.  These stages do not read the ledger:
    from two states with the same call log, whatever their ledgers hold,
    each stage returns the same value and makes the same calls.  Within
    [create_cloudfront_distribution] the bucket policy put, if STS
    answers, is the one built from the account STS returned and the
    identifier in the provider's answer to [create_distribution] in that
    same run, and that identifier is the one the run leaves in the
    ledger. *)
Theorem later_stages_use_their_arguments (self : BlogInfrastructure)
    (w : world) (st : state) :
  (forall certificate_arn,
     Forall (fun cfg =>
               vc_ACMCertificateArn (dc_ViewerCertificate cfg)
               = certificate_arn)
       (distribution_configs
          (issued (create_cloudfront_distribution self certificate_arn)
             w st)))
  /\ (forall distribution_id,
       Forall (fun policy =>
                 exists account,
                   map ps_Condition_StringEquals_SourceArn
                     (bp_Statement policy)
                   = [ "arn:aws:cloudfront::" +:+ account
                         +:+ ":distribution/" +:+ distribution_id ])
         (bucket_policies
            (issued (_update_s3_bucket_policy self distribution_id) w st)))
  /\ (forall cloudfront_domain,
       Forall (fun rs => at_DNSName (rrs_AliasTarget rs) = cloudfront_domain)
         (record_sets
            (issued (create_route53_records self cloudfront_domain) w st)))
  /\ (forall certificate_arn,
       let m := create_cloudfront_distribution self certificate_arn in
       Forall (fun policy =>
                 exists account id,
                   resource "distribution_id" (state_after m w st) = Some id
                   /\ map ps_Condition_StringEquals_SourceArn
                        (bp_Statement policy)
                      = [ "arn:aws:cloudfront::" +:+ account
                            +:+ ":distribution/" +:+ id ])
         (bucket_policies (issued m w st)))
  /\ (forall certificate_arn oac_id d,
       let m := create_cloudfront_distribution self certificate_arn in
       let r_oac := create_oac_request self in
       let r_dist :=
         CloudFront_create_distribution
           (distribution_config self certificate_arn oac_id (clock w)) in
       api w (calls st) r_oac = Returned oac_id ->
       api w (calls st ++ [r_oac]) r_dist = Returned d ->
       resource "distribution_id" (state_after m w st) = Some (dist_Id d)
       /\ bucket_policies (issued m w st)
          = match api w (calls st ++ [r_oac; r_dist])
                    STS_get_caller_identity with
            | Returned account => [bucket_policy self account (dist_Id d)]
            | Raised _ => []
            end
       /\ forall account,
            map ps_Condition_StringEquals_SourceArn
              (bp_Statement (bucket_policy self account (dist_Id d)))
            = [ "arn:aws:cloudfront::" +:+ account +:+ ":distribution/"
                  +:+ dist_Id d ])
  /\ (forall st',
       calls st' = calls st ->
       (forall certificate_arn,
          let m := create_cloudfront_distribution self certificate_arn in
          result_of m w st' = result_of m w st
          /\ issued m w st' = issued m w st)
       /\ (forall distribution_id,
            let m := _update_s3_bucket_policy self distribution_id in
            result_of m w st' = result_of m w st
            /\ issued m w st' = issued m w st)
       /\ (forall cloudfront_domain,
            let m := create_route53_records self cloudfront_domain in
            result_of m w st' = result_of m w st
            /\ issued m w st' = issued m w st)).
Proof.
  split; [|split; [|split; [|split; [|split]]]].
  - intros certificate_arn. rewrite create_cloudfront_distribution_configs.
    destruct (api w (calls st) (create_oac_request self));
      repeat constructor.
  - intros distribution_id.
    assert (Hi : issued (_update_s3_bucket_policy self distribution_id) w st
                 = match api w (calls st) STS_get_caller_identity with
                   | Raised _ => [STS_get_caller_identity]
                   | Returned account =>
                       [ STS_get_caller_identity;
                         S3_put_bucket_policy (bucket_name self)
                           (bucket_policy self account distribution_id) ]
                   end).
    { apply issued_app. unfold state_after.
      rewrite _update_s3_bucket_policy_run.
      now destruct (api w (calls st) STS_get_caller_identity). }
    rewrite Hi.
    destruct (api w (calls st) STS_get_caller_identity) as [account|];
      simpl; repeat constructor. now exists account.
  - intros cloudfront_domain.
    destruct (create_route53_records_cases self cloudfront_domain w st)
      as [(_ & _ & Hi) | [(z & e & _ & _ & _ & _ & Hi)
                         | (z & _ & _ & _ & _ & Hi)]];
      rewrite Hi; simpl; repeat constructor.
  - intros certificate_arn m. subst m.
    rewrite create_cloudfront_distribution_issued. unfold state_after.
    rewrite create_cloudfront_distribution_run. cbv zeta.
    destruct (api w (calls st) (create_oac_request self)) as [oac_id|];
      [|constructor].
    destruct (api w _ (CloudFront_create_distribution _)) as [d|];
      [|constructor].
    destruct (api w _ STS_get_caller_identity) as [account|];
      [|constructor].
    simpl. repeat constructor. exists account, (dist_Id d). split.
    + unfold resource. simpl.
      rewrite lookup_insert_ne by discriminate.
      now rewrite lookup_insert_eq.
    + reflexivity.
  - intros certificate_arn oac_id d m r_oac r_dist Hoac Hdist. subst m.
    rewrite create_cloudfront_distribution_issued. unfold state_after.
    rewrite create_cloudfront_distribution_run. cbv zeta.
    fold r_oac. rewrite Hoac. fold r_dist. rewrite Hdist.
    split; [|split; [|reflexivity]].
    + destruct (api w _ STS_get_caller_identity); unfold resource; simpl;
        rewrite lookup_insert_ne by discriminate;
        now rewrite lookup_insert_eq.
    + now destruct (api w _ STS_get_caller_identity).
  - intros st' Hcalls. split; [|split].
    + intros certificate_arn m. subst m.
      destruct (ledger_blind_create_cloudfront_distribution self
                  certificate_arn w st' st Hcalls) as [Hr Hc].
      split; [exact Hr|]. unfold issued. now rewrite Hc, Hcalls.
    + intros distribution_id m. subst m.
      destruct (ledger_blind__update_s3_bucket_policy self
                  distribution_id w st' st Hcalls) as [Hr Hc].
      split; [exact Hr|]. unfold issued. now rewrite Hc, Hcalls.
    + intros cloudfront_domain m. subst m.
      destruct (ledger_blind_create_route53_records self
                  cloudfront_domain w st' st Hcalls) as [Hr Hc].
      split; [exact Hr|]. unfold issued. now rewrite Hc, Hcalls.
Qed.

(** With a fresh ledger, and with a ledger that holds another
    certificate, the distribution configuration names the certificate
    passed as argument, not the ledger's. *)
Lemma certificate_not_read_from_ledger :
  ~ certificate_read_from_ledger example_com sample_certificate_arn
      (accepting_world 0) (init_state example_com)
  /\ ~ certificate_read_from_ledger example_com sample_certificate_arn
        (accepting_world 0) (stale_state example_com).
Proof.
  unfold certificate_read_from_ledger.
  split; intros H; rewrite create_cloudfront_distribution_configs in H;
    simpl in H; apply Forall_cons in H as [H _]; vm_compute in H;
    discriminate.
Qed.

(** ** The status reporter *)

Lemma with_calls_nil (st : state) : with_calls st [] = st.
Proof. destruct st. unfold with_calls. simpl. now rewrite app_nil_r. Qed.

Lemma with_calls_app (st : state) (l k : list request) :
  with_calls (with_calls st l) k = with_calls st (l ++ k).
Proof. unfold with_calls. simpl. now rewrite app_assoc. Qed.

Lemma check_s3_bucket_run (self : BlogInfrastructure)
    (status : gmap string value) (w : world) (st : state) :
  let r_head := S3_head_bucket (bucket_name self) in
  check_s3_bucket self status w st
  = (Returned
       (set_status "s3_bucket"
          (VStr (match api w (calls st) r_head with
                 | Returned _ => "exists"
                 | Raised _ => "missing"
                 end)) status),
     with_calls st [r_head]).
Proof.
  cbv zeta. unfold check_s3_bucket, try_except, bind, call, ret. simpl.
  now destruct (api w (calls st) (S3_head_bucket (bucket_name self))).
Qed.

Lemma check_certificate_run (status : gmap string value) (w : world)
    (st : state) :
  check_certificate status w st
  = (Returned
       (match usable (resource "certificate_arn" st) with
        | Some arn =>
            set_status "certificate_status"
              (live_status cert_Status
                 (api w (calls st) (ACM_describe_certificate arn)))
              status
        | None => status
        end),
     with_calls st (certificate_query st)).
Proof.
  unfold check_certificate, certificate_query, usable, live_status,
    try_except, bind, get_resource, call, ret. simpl.
  destruct (resource "certificate_arn" st) as [arn|]; simpl.
  - destruct (String.eqb arn ""); simpl.
    + now rewrite with_calls_nil.
    + now destruct (api w (calls st) (ACM_describe_certificate arn)).
  - now rewrite with_calls_nil.
Qed.

Lemma check_cloudfront_distribution_run (status : gmap string value)
    (w : world) (st : state) :
  check_cloudfront_distribution status w st
  = (Returned
       (match usable (resource "distribution_id" st) with
        | Some id =>
            set_status "distribution_status"
              (live_status dist_Status
                 (api w (calls st) (CloudFront_get_distribution id)))
              status
        | None => status
        end),
     with_calls st (distribution_query st)).
Proof.
  unfold check_cloudfront_distribution, distribution_query, usable,
    live_status, try_except, bind, get_resource, call, ret. simpl.
  destruct (resource "distribution_id" st) as [id|]; simpl.
  - destruct (String.eqb id ""); simpl.
    + now rewrite with_calls_nil.
    + now destruct (api w (calls st) (CloudFront_get_distribution id)).
  - now rewrite with_calls_nil.
Qed.

(** A run of [get_status]: the probe, then one sub-query per usable ledger
    slot; each answer, good or bad, only decides its own field. *)
Lemma get_status_run (self : BlogInfrastructure) (w : world) (st : state) :
  let r_head := S3_head_bucket (bucket_name self) in
  let status0 : gmap string value :=
    <["domain" := VStr (domain_name self)]>
      (<["resources" := VDict (resources st)]> ∅) in
  let status1 :=
    set_status "s3_bucket"
      (VStr (match api w (calls st) r_head with
             | Returned _ => "exists"
             | Raised _ => "missing"
             end)) status0 in
  let status2 :=
    match usable (resource "certificate_arn" st) with
    | Some arn =>
        set_status "certificate_status"
          (live_status cert_Status
             (api w (calls st ++ [r_head]) (ACM_describe_certificate arn)))
          status1
    | None => status1
    end in
  let status3 :=
    match usable (resource "distribution_id" st) with
    | Some id =>
        set_status "distribution_status"
          (live_status dist_Status
             (api w (calls st ++ r_head :: certificate_query st)
                (CloudFront_get_distribution id)))
          status2
    | None => status2
    end in
  get_status self w st
  = (Returned status3,
     with_calls st (r_head :: certificate_query st ++ distribution_query st)).
Proof.
  cbv zeta. unfold get_status.
  unfold bind at 1. unfold get_resources. simpl.
  unfold bind at 1. rewrite check_s3_bucket_run. cbv zeta.
  unfold bind at 1. rewrite check_certificate_run.
  unfold bind, ret. rewrite check_cloudfront_distribution_run.
  rewrite !with_calls_app. simpl.
  unfold certificate_query at 1 2, distribution_query at 1. 
  unfold resource, with_calls. simpl. rewrite <- ?app_assoc. simpl.
  reflexivity.
Qed.

(** The status query never looks beyond the ledger and the provider: a
    computation that reads a slot is not blind to the ledger. *)
Lemma get_status_reads_ledger : ~ ledger_blind (get_status example_com).
Proof.
  intros H.
  destruct (H (accepting_world 0) (init_state example_com)
              (stale_state example_com) eq_refl) as [_ Hc].
  vm_compute in Hc. discriminate.
Qed.

(** *** The status query over a provider that may raise anything *)

Lemma check_s3_bucket_x_run (self : BlogInfrastructure)
    (status : gmap string value) (w : world_x) (st : state) :
  let r_head := S3_head_bucket (bucket_name self) in
  check_s3_bucket_x self status w st
  = (match api_x w (calls st) r_head with
     | Returned_x _ =>
         Returned_x (set_status "s3_bucket" (VStr "exists") status)
     | Raised_x (Client_error _) =>
         Returned_x (set_status "s3_bucket" (VStr "missing") status)
     | Raised_x (Other_error name) => Raised_x (Other_error name)
     end,
     with_calls st [r_head]).
Proof.
  cbv zeta. unfold check_s3_bucket_x, try_except_x, bind_x, call_x, ret_x.
  simpl.
  now destruct (api_x w (calls st) _) as [[]|[e|name]].
Qed.

Lemma check_certificate_x_run (status : gmap string value) (w : world_x)
    (st : state) :
  check_certificate_x status w st
  = (match usable (resource "certificate_arn" st) with
     | Some arn =>
         match api_x w (calls st) (ACM_describe_certificate arn) with
         | Raised_x (Other_error name) => Raised_x (Other_error name)
         | o =>
             Returned_x
               (set_status "certificate_status"
                  (live_status_x cert_Status o) status)
         end
     | None => Returned_x status
     end,
     with_calls st (certificate_query st)).
Proof.
  unfold check_certificate_x, certificate_query, usable, live_status_x,
    try_except_x, bind_x, get_resource_x, call_x, ret_x. simpl.
  destruct (resource "certificate_arn" st) as [arn|]; simpl.
  - destruct (String.eqb arn ""); simpl.
    + now rewrite with_calls_nil.
    + now destruct (api_x w (calls st) _) as [c|[e|name]].
  - now rewrite with_calls_nil.
Qed.

Lemma check_cloudfront_distribution_x_run (status : gmap string value)
    (w : world_x) (st : state) :
  check_cloudfront_distribution_x status w st
  = (match usable (resource "distribution_id" st) with
     | Some id =>
         match api_x w (calls st) (CloudFront_get_distribution id) with
         | Raised_x (Other_error name) => Raised_x (Other_error name)
         | o =>
             Returned_x
               (set_status "distribution_status"
                  (live_status_x dist_Status o) status)
         end
     | None => Returned_x status
     end,
     with_calls st (distribution_query st)).
Proof.
  unfold check_cloudfront_distribution_x, distribution_query, usable,
    live_status_x, try_except_x, bind_x, get_resource_x, call_x, ret_x.
  simpl.
  destruct (resource "distribution_id" st) as [id|]; simpl.
  - destruct (String.eqb id ""); simpl.
    + now rewrite with_calls_nil.
    + now destruct (api_x w (calls st) _) as [d|[e|name]].
  - now rewrite with_calls_nil.
Qed.

Lemma agrees_ret {A} (a : A) : agrees (ret_x a) (ret a).
Proof. now intros w st. Qed.

Lemma agrees_call (r : request) : agrees (call_x r) (call r).
Proof. now intros w st. Qed.

Lemma agrees_get_resource k : agrees (get_resource_x k) (get_resource k).
Proof. now intros w st. Qed.

Lemma agrees_get_resources : agrees get_resources_x get_resources.
Proof. now intros w st. Qed.

Lemma agrees_bind {A B} (mx : MX A) (m : M A) (kx : A -> MX B)
    (k : A -> M B) :
  agrees mx m -> (forall a, agrees (kx a) (k a)) ->
  agrees (bind_x mx kx) (bind m k).
Proof.
  intros Hm Hk w st. unfold bind_x, bind. rewrite Hm.
  destruct (m w st) as [[a|e] st']; simpl; [apply Hk | reflexivity].
Qed.

Lemma agrees_try_except {A} (mx : MX A) (m : M A)
    (hx : ClientError -> MX A) (h : ClientError -> M A) :
  agrees mx m -> (forall e, agrees (hx e) (h e)) ->
  agrees (try_except_x mx hx) (try_except m h).
Proof.
  intros Hm Hh w st. unfold try_except_x, try_except. rewrite Hm.
  destruct (m w st) as [[a|e] st']; simpl; [reflexivity | apply Hh].
Qed.

Ltac agrees :=
  repeat match goal with
    | |- agrees (try_except_x _ _) (try_except _ _) =>
        apply agrees_try_except; [|intros]
    | |- agrees (bind_x _ _) (bind _ _) => apply agrees_bind; [|intros]
    | |- agrees (ret_x _) (ret _) => apply agrees_ret
    | |- agrees (call_x _) (call _) => apply agrees_call
    | |- agrees (get_resource_x _) (get_resource _) =>
        apply agrees_get_resource
    | |- agrees get_resources_x get_resources => apply agrees_get_resources
    | |- agrees (if ?b then _ else _) (if ?b then _ else _) => destruct b
    | |- agrees (match ?x with _ => _ end) (match ?x with _ => _ end) =>
        destruct x
    end.

(** Over a provider that only raises [ClientError], the second model of
    the status query is the first. *)
Lemma get_status_x_embed (self : BlogInfrastructure) :
  agrees (get_status_x self) (get_status self).
Proof.
  unfold get_status_x, get_status, check_s3_bucket_x, check_s3_bucket,
    check_certificate_x, check_certificate,
    check_cloudfront_distribution_x, check_cloudfront_distribution.
  agrees.
Qed.

(** A run of [get_status] over the richer provider: it stops at the first
    query that raises something other than [ClientError]; otherwise each
    answer, good or bad, only decides its own field. *)
Lemma get_status_x_result (self : BlogInfrastructure) (w : world_x)
    (st : state) :
  let r_head := S3_head_bucket (bucket_name self) in
  let status0 : gmap string value :=
    <["domain" := VStr (domain_name self)]>
      (<["resources" := VDict (resources st)]> ∅) in
  let status1 :=
    set_status "s3_bucket"
      (VStr (match api_x w (calls st) r_head with
             | Returned_x _ => "exists"
             | Raised_x _ => "missing"
             end)) status0 in
  let status2 :=
    match usable (resource "certificate_arn" st) with
    | Some arn =>
        set_status "certificate_status"
          (live_status_x cert_Status
             (api_x w (calls st ++ [r_head]) (ACM_describe_certificate arn)))
          status1
    | None => status1
    end in
  let status3 :=
    match usable (resource "distribution_id" st) with
    | Some id =>
        set_status "distribution_status"
          (live_status_x dist_Status
             (api_x w (calls st ++ r_head :: certificate_query st)
                (CloudFront_get_distribution id)))
          status2
    | None => status2
    end in
  exists st',
    get_status_x self w st
    = (match status_abort self w st with
       | Some name => Raised_x (Other_error name)
       | None => Returned_x status3
       end, st')
    /\ resources st' = resources st.
Proof.
  cbv zeta. unfold get_status_x, status_abort.
  unfold bind_x at 1. unfold get_resources_x. simpl.
  unfold bind_x at 1. rewrite check_s3_bucket_x_run. cbv zeta.
  set (r_head := S3_head_bucket (bucket_name self)).
  destruct (api_x w (calls st) r_head) as [[]|[e1|n1]]; simpl;
    [| |eexists; split; reflexivity];
    (unfold bind_x at 1; rewrite check_certificate_x_run;
     unfold certificate_query, distribution_query, resource; simpl;
     destruct (usable (default None (resources st !! "certificate_arn")))
       as [arn|]; simpl;
     [destruct (api_x w (calls st ++ [r_head])
                  (ACM_describe_certificate arn)) as [c|[e2|n2]]; simpl;
      [| |eexists; split; reflexivity]|];
     unfold bind_x, ret_x; rewrite check_cloudfront_distribution_x_run;
     unfold distribution_query, resource; simpl;
     (destruct (usable (default None (resources st !! "distribution_id")))
        as [id|]; simpl; [|eexists; split; reflexivity];
      rewrite <- ?app_assoc; simpl;
      destruct (api_x w _ (CloudFront_get_distribution id))
        as [d|[e3|n3]]; simpl; eexists; split; reflexivity)).
Qed.

(** C7 (as amended).  [get_status] returns a snapshot unless one of the
    queries it makes raises an exception that is not a [ClientError]:
    such an exception is not caught and ends the query without a
    snapshot.  A [ClientError] never does: the snapshot then carries the
    domain, a copy of the ledger and the bucket state ("exists", or
    "missing" when the probe fails); it has a certificate-status
    (distribution-status) field exactly when the ledger holds a non-empty
    certificate (distribution) identifier, and that field is what the
    provider reports, or "error" when that one sub-query fails, the other
    fields not depending on it.  With the ledger as the constructor
    leaves it and a probe that fails with a [ClientError], the snapshot
    is the domain, the ledger copy and bucket "missing", with no
    certificate-status or distribution-status field. *)
Theorem get_status_snapshot_unless_other_error (self : BlogInfrastructure)
    (w : world_x) (st : state) :
  let m := get_status_x self in
  let r_head := S3_head_bucket (bucket_name self) in
  (forall name,
     status_abort self w st = Some name ->
     result_of_x m w st = Raised_x (Other_error name))
  /\ (status_abort self w st = None ->
      exists status : gmap string value,
        result_of_x m w st = Returned_x status
        /\ resources (state_after_x m w st) = resources st
        /\ status !! "domain" = Some (VStr (domain_name self))
        /\ status !! "resources" = Some (VDict (resources st))
        /\ status !! "s3_bucket"
           = Some (VStr (match api_x w (calls st) r_head with
                         | Returned_x _ => "exists"
                         | Raised_x _ => "missing"
                         end))
        /\ status !! "certificate_status"
           = match usable (resource "certificate_arn" st) with
             | Some arn =>
                 Some (live_status_x cert_Status
                         (api_x w (calls st ++ [r_head])
                            (ACM_describe_certificate arn)))
             | None => None
             end
        /\ status !! "distribution_status"
           = match usable (resource "distribution_id" st) with
             | Some id =>
                 Some (live_status_x dist_Status
                         (api_x w (calls st ++ r_head :: certificate_query st)
                            (CloudFront_get_distribution id)))
             | None => None
             end
        /\ (resources st = init_resources self ->
            forall e, api_x w (calls st) r_head = Raised_x (Client_error e) ->
            status
            = <["domain" := VStr (domain_name self)]>
                (<["resources" := VDict (init_resources self)]>
                (<["s3_bucket" := VStr "missing"]> ∅))
            /\ status !! "certificate_status" = None
            /\ status !! "distribution_status" = None)
        /\ (forall arn e,
              resource "certificate_arn" st = Some arn -> arn <> "" ->
              api_x w (calls st ++ [r_head]) (ACM_describe_certificate arn)
              = Raised_x (Client_error e) ->
              status !! "certificate_status" = Some (VStr "error"))
        /\ (forall id e,
              resource "distribution_id" st = Some id -> id <> "" ->
              api_x w (calls st ++ r_head :: certificate_query st)
                (CloudFront_get_distribution id)
              = Raised_x (Client_error e) ->
              status !! "distribution_status" = Some (VStr "error"))).
Proof.
  intros m r_head. subst m.
  destruct (get_status_x_result self w st) as (st' & Hres & Hledger).
  cbv zeta in Hres. fold r_head in Hres.
  unfold result_of_x, state_after_x. rewrite Hres. simpl.
  split; [now intros name ->|]. intros ->.
  eexists. split; [reflexivity|]. split; [exact Hledger|].
  assert (Hcert_none : resources st = init_resources self ->
                       usable (resource "certificate_arn" st) = None).
  { intros E. unfold resource. rewrite E. reflexivity. }
  assert (Hdist_none : resources st = init_resources self ->
                       usable (resource "distribution_id" st) = None).
  { intros E. unfold resource. rewrite E. reflexivity. }
  split; [|split; [|split; [|split; [|split; [|split; [|split]]]]]].
  - destruct (usable (resource "distribution_id" st));
      destruct (usable (resource "certificate_arn" st)); now lookup_status.
  - destruct (usable (resource "distribution_id" st));
      destruct (usable (resource "certificate_arn" st)); now lookup_status.
  - destruct (usable (resource "distribution_id" st));
      destruct (usable (resource "certificate_arn" st)); now lookup_status.
  - destruct (usable (resource "distribution_id" st));
      destruct (usable (resource "certificate_arn" st)); now lookup_status.
  - destruct (usable (resource "distribution_id" st));
      destruct (usable (resource "certificate_arn" st)); now lookup_status.
  - intros E e He. rewrite (Hcert_none E), (Hdist_none E), He, E.
    split; [|now lookup_status].
    unfold set_status. apply map_eq. intros k.
    destruct (decide (k = "domain")) as [->|Hd]; [now lookup_status|].
    destruct (decide (k = "resources")) as [->|Hr]; [now lookup_status|].
    destruct (decide (k = "s3_bucket")) as [->|Hs]; [now lookup_status|].
    rewrite !lookup_insert_ne by congruence. reflexivity.
  - intros arn e Harn Hne He. rewrite Harn. unfold usable. simpl.
    apply String.eqb_neq in Hne. rewrite Hne. simpl. rewrite He.
    destruct (match resource "distribution_id" st with
              | Some id => if truthy (resource "distribution_id" st)
                           then Some id else None
              | None => None
              end); now lookup_status.
  - intros id e Hid Hne He. rewrite Hid. unfold usable at 1. simpl.
    apply String.eqb_neq in Hne. rewrite Hne. simpl. rewrite He.
    now lookup_status.
Qed.

(** For the empty domain the client refuses the bucket probe before
    anything is sent; nothing in [get_status] catches that, and no
    snapshot is returned. *)
Lemma get_status_aborts_on_other_error :
  result_of_x (get_status_x empty_domain) validating_world_x
    (init_state empty_domain)
  = Raised_x (Other_error "ParamValidationError")
  /\ ~ exists status : gmap string value,
        result_of_x (get_status_x empty_domain) validating_world_x
          (init_state empty_domain) = Returned_x status.
Proof.
  assert (H : result_of_x (get_status_x empty_domain) validating_world_x
                (init_state empty_domain)
              = Raised_x (Other_error "ParamValidationError")).
  { destruct (get_status_x_result empty_domain validating_world_x
                (init_state empty_domain)) as (st' & Hres & _).
    cbv zeta in Hres. unfold result_of_x. rewrite Hres. reflexivity. }
  split; [exact H|]. intros [status Hs]. rewrite H in Hs. discriminate.
Qed.

(** ** Further facts *)

(** The derived subdomain. *)
Lemma www_domain_init (D region : string) :
  www_domain (__init__ D region) = "www." +:+ D.
Proof. reflexivity. Qed.

(** The validation records are those of the options that carry a resource
    record, and the empty list when the query fails. *)
Lemma get_certificate_validation_records_result (certificate_arn : string)
    (w : world) (st : state) :
  result_of (get_certificate_validation_records certificate_arn) w st
  = Returned
      (match api w (calls st) (ACM_describe_certificate certificate_arn) with
       | Returned c =>
           concat (map validation_record (cert_DomainValidationOptions c))
       | Raised _ => []
       end).
Proof.
  unfold result_of, get_certificate_validation_records, try_except, bind,
    call, ret. simpl.
  now destruct (api w (calls st) (ACM_describe_certificate certificate_arn)).
Qed.

(** A certificate in the ledger whose status query is rejected: that field
    alone reads "error". *)
Example get_status_degraded :
  match result_of (get_status example_com)
          (rejecting_world is_describe_certificate "AccessDenied" 0)
          (stale_state example_com) with
  | Returned status =>
      status !! "s3_bucket" = Some (VStr "exists")
      /\ status !! "certificate_status" = Some (VStr "error")
      /\ status !! "distribution_status" = None
  | Raised _ => False
  end.
Proof. vm_compute. auto. Qed.

(** The full pipeline against an accepting provider stops at the manual
    validation gate with the certificate in hand. *)
Example deploy_example :
  match result_of (deploy_full_infrastructure example_com)
          (accepting_world 0) (init_state example_com) with
  | Returned result =>
      result !! "success" = Some (VBool true)
      /\ result !! "step" = Some (VStr "Certificate validation required")
      /\ result !! "certificate_arn" = Some (VStr sample_certificate_arn)
  | Raised _ => False
  end
  /\ resource "certificate_arn"
       (state_after (deploy_full_infrastructure example_com)
          (accepting_world 0) (init_state example_com))
     = Some sample_certificate_arn.
Proof. vm_compute. auto. Qed.

(** ** The statements at concrete inputs *)

(** Bucket creation rejected with [AccessDenied]: the pipeline reports the
    bucket stage and requests no certificate. *)
Lemma deploy_halts_at_first_failure_witness :
  let w := rejecting_world is_create_bucket "AccessDenied" 0 in
  result_of (deploy_full_infrastructure example_com) w
    (init_state example_com)
  = Returned (failure_report StageBucket)
  /\ certificate_requests
       (issued (deploy_full_infrastructure example_com) w
          (init_state example_com)) = [].
Proof.
  intros w.
  destruct (deploy_halts_at_first_failure example_com w
              (init_state example_com) StageBucket) as (Hr & _ & Hc).
  - exists {| error_code := "AccessDenied"; error_message := "rejected" |}.
    split; [reflexivity | discriminate].
  - split; assumption.
Defined.

(** Re-running on a bucket the caller owns. *)
Lemma create_s3_bucket_success_or_owned_witness :
  let w := rejecting_world is_create_bucket "BucketAlreadyOwnedByYou" 0 in
  result_of (create_s3_bucket example_com) w (init_state example_com)
  = Returned true
  /\ issued (create_s3_bucket example_com) w (init_state example_com)
     = [create_bucket_request example_com].
Proof.
  intros w.
  apply (proj2 (proj2 (proj2
           (create_s3_bucket_success_or_owned example_com w
              (init_state example_com))))
           {| error_code := "BucketAlreadyOwnedByYou";
              error_message := "rejected" |});
    reflexivity.
Defined.

(** Three zones, the second and third both named for the apex domain: the
    second one is returned. *)
Lemma get_hosted_zone_id_first_match_witness :
  result_of (get_hosted_zone_id example_com) (accepting_world 0)
    (init_state example_com)
  = Returned (Some "/hostedzone/Z1BBBBBBBBBBBB").
Proof.
  apply (proj1 (get_hosted_zone_id_first_match example_com
                  (accepting_world 0) (init_state example_com))
           sample_zones
           [ {| hz_Name := "example.org.";
                hz_Id := "/hostedzone/Z0AAAAAAAAAAAA" |} ]
           {| hz_Name := "example.com.";
              hz_Id := "/hostedzone/Z1BBBBBBBBBBBB" |}
           [ {| hz_Name := "example.com.";
                hz_Id := "/hostedzone/Z2CCCCCCCCCCCC" |} ]).
  - reflexivity.
  - reflexivity.
  - repeat constructor. vm_compute. discriminate.
  - reflexivity.
Defined.

(** The zone resolves and the provider accepts: two upserts. *)
Lemma create_route53_records_two_alias_upserts_witness :
  let m := create_route53_records example_com
             "d111111abcdef8.cloudfront.net" in
  map fst (change_requests
             (issued m (accepting_world 0) (init_state example_com)))
  = ["/hostedzone/Z1BBBBBBBBBBBB"; "/hostedzone/Z1BBBBBBBBBBBB"]
  /\ record_sets (issued m (accepting_world 0) (init_state example_com))
     = [ alias_record_set "example.com" "d111111abcdef8.cloudfront.net";
         alias_record_set "www.example.com" "d111111abcdef8.cloudfront.net" ].
Proof.
  intros m.
  apply (proj1 (proj2
           (create_route53_records_two_alias_upserts "example.com"
              "eu-west-1" "d111111abcdef8.cloudfront.net"
              (accepting_world 0) (init_state example_com)))
           "/hostedzone/Z1BBBBBBBBBBBB").
  - reflexivity.
  - discriminate.
  - reflexivity.
Defined.

(** No zone of the account is named for "example.net". *)
Lemma create_route53_records_without_zone_witness :
  let self := __init__ "example.net" "eu-west-1" in
  let m := create_route53_records self "d111111abcdef8.cloudfront.net" in
  result_of m (accepting_world 0) (init_state self) = Returned false
  /\ issued m (accepting_world 0) (init_state self)
     = [Route53_list_hosted_zones]
  /\ change_requests (issued m (accepting_world 0) (init_state self)) = [].
Proof.
  intros self m.
  apply (proj2 (create_route53_records_without_zone self
                  "d111111abcdef8.cloudfront.net" (accepting_world 0)
                  (init_state self))).
  intros zones E. injection E as <-.
  repeat constructor; vm_compute; discriminate.
Defined.

(** Same second and same provider answer give the same configuration,
    whatever else differs; one second later the configuration differs. *)
Lemma create_cloudfront_distribution_two_runs_witness :
  let m := create_cloudfront_distribution example_com sample_certificate_arn in
  distribution_configs
    (issued m (accepting_world 1700000000) (init_state example_com))
  = distribution_configs
      (issued m (rejecting_world is_head_bucket "403" 1700000000)
         (stale_state example_com))
  /\ distribution_configs
       (issued m (accepting_world 1700000000) (init_state example_com))
     <> distribution_configs
          (issued m (accepting_world 1700000060) (init_state example_com)).
Proof.
  intros m. split.
  - apply (proj1 (proj2
             (create_cloudfront_distribution_two_runs example_com
                sample_certificate_arn (accepting_world 1700000000)
                (rejecting_world is_head_bucket "403" 1700000000)
                (init_state example_com) (stale_state example_com))));
      reflexivity.
  - apply (proj2 (proj2
             (create_cloudfront_distribution_two_runs example_com
                sample_certificate_arn (accepting_world 1700000000)
                (accepting_world 1700000060)
                (init_state example_com) (init_state example_com)))
             "E3OACEXAMPLE" "E3OACEXAMPLE");
      [reflexivity | reflexivity | discriminate].
Defined.

(** * Further properties *)

(** ** Calls and ledger slots an operation is confined to *)

Lemma confined_ret {A} P K (a : A) : confined P K (ret a).
Proof.
  intros w st. split; [|done].
  exists []. simpl. now rewrite app_nil_r.
Qed.

Lemma confined_call P K (r : request) : P r -> confined P K (call r).
Proof.
  intros Hr w st. split; [|done].
  exists [r]. split; [reflexivity | now constructor].
Qed.

Lemma confined_time_time P K : confined P K time_time.
Proof.
  intros w st. split; [|done].
  exists []. simpl. now rewrite app_nil_r.
Qed.

Lemma confined_get_resource P K k : confined P K (get_resource k).
Proof.
  intros w st. split; [|done].
  exists []. simpl. now rewrite app_nil_r.
Qed.

Lemma confined_get_resources P K : confined P K get_resources.
Proof.
  intros w st. split; [|done].
  exists []. simpl. now rewrite app_nil_r.
Qed.

Lemma confined_set_resource P (K : list string) k v :
  k ∈ K -> confined P K (set_resource k v).
Proof.
  intros Hk w st. split.
  - exists []. simpl. now rewrite app_nil_r.
  - intros k' Hk'. unfold state_after, set_resource. simpl.
    apply lookup_insert_ne. intros ->. contradiction.
Qed.

Lemma confined_bind {A B} P K (m : M A) (k : A -> M B) :
  confined P K m -> (forall a, confined P K (k a)) -> confined P K (bind m k).
Proof.
  intros Hm Hk w st. specialize (Hm w st). unfold state_after, bind in *.
  destruct (m w st) as [[a|e] st']; simpl in *; [|exact Hm].
  destruct Hm as [(l1 & Hl1 & HP1) Hf1].
  destruct (Hk a w st') as [(l2 & Hl2 & HP2) Hf2].
  unfold state_after in *. split.
  - exists (l1 ++ l2). split; [now rewrite Hl2, Hl1, app_assoc|].
    now apply Forall_app.
  - intros k' Hk'. now rewrite Hf2, Hf1.
Qed.

Lemma confined_try_except {A} P K (body : M A)
    (handler : ClientError -> M A) :
  confined P K body -> (forall e, confined P K (handler e)) ->
  confined P K (try_except body handler).
Proof.
  intros Hm Hk w st. specialize (Hm w st).
  unfold state_after, try_except in *.
  destruct (body w st) as [[a|e] st']; simpl in *; [exact Hm|].
  destruct Hm as [(l1 & Hl1 & HP1) Hf1].
  destruct (Hk e w st') as [(l2 & Hl2 & HP2) Hf2].
  unfold state_after in *. split.
  - exists (l1 ++ l2). split; [now rewrite Hl2, Hl1, app_assoc|].
    now apply Forall_app.
  - intros k' Hk'. now rewrite Hf2, Hf1.
Qed.

Lemma confined_weaken {A} (P Q : request -> Prop) (K K' : list string)
    (m : M A) :
  (forall r, P r -> Q r) -> K ⊆ K' -> confined P K m -> confined Q K' m.
Proof.
  intros HPQ HK Hm w st. destruct (Hm w st) as [(l & Hl & HP) Hf]. split.
  - exists l. split; [exact Hl|]. eapply Forall_impl; eauto.
  - intros k Hk. apply Hf. intros Hin. apply Hk, HK, Hin.
Qed.

Lemma confined_issued {A} P K (m : M A) (w : world) (st : state) :
  confined P K m ->
  Forall P (issued m w st)
  /\ (forall k, k ∉ K ->
      resources (state_after m w st) !! k = resources st !! k).
Proof.
  intros Hm. destruct (Hm w st) as [(l & Hl & HP) Hf].
  split; [|exact Hf]. now rewrite (issued_app m w st l Hl).
Qed.

(** Walk through a program; what is left are the conditions on the calls
    and on the slots written. *)
Ltac confined :=
  repeat first
    [ apply confined_bind; [|intros]
    | apply confined_try_except; [|intros]
    | apply confined_ret
    | apply confined_time_time
    | apply confined_get_resource
    | apply confined_get_resources
    | match goal with
      | |- confined _ _ (if ?b then _ else _) => destruct b
      | |- confined _ _ (match ?x with _ => _ end) => destruct x
      | |- confined ?P ?K (call ?r) => apply (confined_call P K r)
      | |- confined ?P ?K (set_resource ?k ?v) =>
          apply (confined_set_resource P K k v)
      end ].

(** The calls an operation may make: to its own services, and, when to the
    object store, about the bucket named after the domain. *)
Lemma perform_confined (self : BlogInfrastructure) (op : operation) :
  confined
    (fun r => service_of r ∈ services_of op
              /\ forall b, bucket_of r = Some b -> b = bucket_name self)
    (slots_of op) (perform self op).
Proof.
  destruct op; simpl.
  - unfold create_s3_bucket, create_s3_bucket_body,
      create_s3_bucket_handler.
    confined; (split; [set_solver | simpl; congruence]).
  - unfold request_ssl_certificate.
    confined; try (split; [set_solver | simpl; congruence]); set_solver.
  - unfold get_certificate_validation_records.
    confined; (split; [set_solver | simpl; congruence]).
  - unfold get_hosted_zone_id.
    apply confined_bind; [|intros; apply confined_ret].
    apply confined_try_except; [|intros; apply confined_ret].
    apply confined_bind;
      [apply confined_call; split; [set_solver | simpl; congruence]|].
    intros zones. induction zones as [|zone zones IH]; simpl.
    + apply confined_ret.
    + destruct (String.eqb _ _); [|exact IH]. confined. set_solver.
  - unfold create_cloudfront_distribution, _update_s3_bucket_policy.
    confined; try (split; [set_solver | simpl; congruence]); set_solver.
  - unfold _update_s3_bucket_policy.
    confined; (split; [set_solver | simpl; congruence]).
  - unfold create_route53_records.
    apply confined_bind; [|intros; apply confined_ret].
    apply confined_bind.
    + unfold get_hosted_zone_id.
      apply confined_try_except; [|intros; apply confined_ret].
      apply confined_bind;
        [apply confined_call; split; [set_solver | simpl; congruence]|].
      intros zones. induction zones as [|zone zones IH]; simpl.
      * apply confined_ret.
      * destruct (String.eqb _ _); [|exact IH]. confined. set_solver.
    + intros hosted_zone_id.
      confined; (split; [set_solver | simpl; congruence]).
  - unfold deploy_full_infrastructure, create_s3_bucket,
      create_s3_bucket_body, create_s3_bucket_handler,
      request_ssl_certificate.
    confined; try (split; [set_solver | simpl; congruence]); set_solver.
  - unfold get_status, check_s3_bucket, check_certificate,
      check_cloudfront_distribution.
    confined; (split; [set_solver | simpl; congruence]).
Qed.

(** X1.  Each operation writes only its own ledger slots: the certificate
    request and the deployment pipeline only [certificate_arn]; the zone
    lookup and the DNS publisher only [hosted_zone_id]; the distribution
    provisioner only [distribution_id] and [cloudfront_domain]; bucket
    creation, the validation-record query, the bucket-policy helper and
    the status query none at all.  Every other slot keeps its value,
    whatever the provider answers. *)
Theorem operation_writes_own_slots (self : BlogInfrastructure)
    (op : operation) (w : world) (st : state) (k : string) :
  k ∉ slots_of op ->
  resources (state_after (perform self op) w st) !! k = resources st !! k.
Proof.
  intros Hk.
  now apply (confined_issued _ _ _ w st (perform_confined self op)).
Qed.

(** X2.  Each operation calls only its own services (bucket creation the
    object store; the certificate operations ACM; the zone lookup and the
    DNS publisher Route53; the distribution provisioner CloudFront, STS and
    the object store; the pipeline the object store and ACM; the status
    query the object store, ACM and CloudFront), and every call to the
    object store names the bucket of the object. *)
Theorem operation_calls_own_services (self : BlogInfrastructure)
    (op : operation) (w : world) (st : state) :
  Forall (fun r => service_of r ∈ services_of op
                   /\ match bucket_of r with
                      | Some b => b = bucket_name self
                      | None => True
                      end)
    (issued (perform self op) w st).
Proof.
  destruct (confined_issued _ _ _ w st (perform_confined self op))
    as [H _].
  eapply Forall_impl; [exact H|]. intros r [Hs Hb]. split; [exact Hs|].
  destruct (bucket_of r); auto.
Qed.

(** ** Errors that escape *)

Lemma never_raises_ret {A} (a : A) : never_raises (ret a).
Proof. intros w st. now exists a. Qed.

Lemma never_raises_get_resource k : never_raises (get_resource k).
Proof. intros w st. eexists. reflexivity. Qed.

Lemma never_raises_get_resources : never_raises get_resources.
Proof. intros w st. eexists. reflexivity. Qed.

Lemma never_raises_set_resource k v : never_raises (set_resource k v).
Proof. intros w st. now exists tt. Qed.

Lemma never_raises_bind {A B} (m : M A) (k : A -> M B) :
  never_raises m -> (forall a, never_raises (k a)) -> never_raises (bind m k).
Proof.
  intros Hm Hk w st. destruct (Hm w st) as [a Ha].
  unfold result_of, bind in *.
  destruct (m w st) as [[a'|e] st']; simpl in *; [|discriminate].
  apply Hk.
Qed.

(** A [try] whose handler returns lets nothing escape, whatever its body
    does. *)
Lemma never_raises_try_except {A} (body : M A)
    (handler : ClientError -> M A) :
  (forall e, never_raises (handler e)) ->
  never_raises (try_except body handler).
Proof.
  intros Hk w st. unfold result_of, try_except.
  destruct (body w st) as [[a|e] st']; simpl; [now exists a|].
  apply Hk.
Qed.

Ltac never_raises :=
  repeat match goal with
    | |- never_raises (try_except _ _) =>
        apply never_raises_try_except; intros
    | |- never_raises (bind _ _) => apply never_raises_bind; [|intros]
    | |- never_raises (ret _) => apply never_raises_ret
    | |- never_raises (get_resource _) => apply never_raises_get_resource
    | |- never_raises get_resources => apply never_raises_get_resources
    | |- never_raises (set_resource _ _) => apply never_raises_set_resource
    | |- never_raises (if ?b then _ else _) => destruct b
    | |- never_raises (match ?x with _ => _ end) => destruct x
    end.

Lemma never_raises_create_s3_bucket self : never_raises (create_s3_bucket self).
Proof.
  unfold create_s3_bucket, create_s3_bucket_handler. never_raises.
Qed.

Lemma never_raises_request_ssl_certificate self :
  never_raises (request_ssl_certificate self).
Proof. unfold request_ssl_certificate. never_raises. Qed.

Lemma never_raises_get_hosted_zone_id self :
  never_raises (get_hosted_zone_id self).
Proof. unfold get_hosted_zone_id. never_raises. Qed.

Lemma never_raises_deploy_full_infrastructure self :
  never_raises (deploy_full_infrastructure self).
Proof.
  unfold deploy_full_infrastructure.
  apply never_raises_bind; [apply never_raises_create_s3_bucket|].
  intros created. destruct created; simpl; [|apply never_raises_ret].
  apply never_raises_bind; [apply never_raises_request_ssl_certificate|].
  intros c. never_raises.
Qed.

Lemma never_raises_get_status self : never_raises (get_status self).
Proof.
  unfold get_status, check_s3_bucket, check_certificate,
    check_cloudfront_distribution.
  never_raises.
Qed.

Lemma never_raises_create_route53_records self cloudfront_domain :
  never_raises (create_route53_records self cloudfront_domain).
Proof.
  unfold create_route53_records.
  apply never_raises_bind; [apply never_raises_get_hosted_zone_id|].
  intros z. never_raises.
Qed.

(** X3.  No public operation lets a [ClientError] escape: whichever
    provider calls raise one, it is caught inside the operation.  The
    helper [_update_s3_bucket_policy] is the exception: it raises exactly
    when the STS lookup of the account fails, with that error, and then
    puts no policy; a rejected [put_bucket_policy] it swallows.
    (Exceptions that are not [ClientError] are not the subject here.) *)
Theorem only_the_policy_helper_raises (self : BlogInfrastructure)
    (w : world) (st : state) :
  (forall op e, public op ->
     result_of (perform self op) w st <> Raised e)
  /\ (forall distribution_id e,
        result_of (_update_s3_bucket_policy self distribution_id) w st
        = Raised e
        <-> api w (calls st) STS_get_caller_identity = Raised e)
  /\ (forall distribution_id e,
        api w (calls st) STS_get_caller_identity = Raised e ->
        issued (_update_s3_bucket_policy self distribution_id) w st
        = [STS_get_caller_identity])
  /\ (forall distribution_id account,
        api w (calls st) STS_get_caller_identity = Returned account ->
        result_of (_update_s3_bucket_policy self distribution_id) w st
        = Returned tt).
Proof.
  split; [|split; [|split]].
  - intros op e Hop.
    assert (H : never_raises (perform self op)).
    { destruct op; simpl in *; try contradiction;
        (apply never_raises_bind; [|intros; apply never_raises_ret]).
      + apply never_raises_create_s3_bucket.
      + apply never_raises_request_ssl_certificate.
      + unfold get_certificate_validation_records. never_raises.
      + apply never_raises_get_hosted_zone_id.
      + unfold create_cloudfront_distribution. never_raises.
      + apply never_raises_create_route53_records.
      + apply never_raises_deploy_full_infrastructure.
      + apply never_raises_get_status. }
    destruct (H w st) as [v Hv]. rewrite Hv. discriminate.
  - intros distribution_id e. unfold result_of.
    rewrite _update_s3_bucket_policy_run.
    destruct (api w (calls st) STS_get_caller_identity) as [account|e'];
      simpl; split; intros H; try discriminate; congruence.
  - intros distribution_id e He. apply issued_app. unfold state_after.
    rewrite _update_s3_bucket_policy_run, He. reflexivity.
  - intros distribution_id account Ha. unfold result_of.
    rewrite _update_s3_bucket_policy_run, Ha. reflexivity.
Qed.

(** ** The ledger over any sequence of operations *)

Lemma orderly_perform self op : orderly (perform self op).
Proof.
  destruct op; simpl;
    try (apply orderly_bind; [|intros; apply orderly_ret]).
  - apply orderly_create_s3_bucket.
  - apply orderly_request_ssl_certificate.
  - apply orderly_get_certificate_validation_records.
  - apply orderly_get_hosted_zone_id.
  - apply orderly_create_cloudfront_distribution.
  - apply orderly__update_s3_bucket_policy.
  - apply orderly_create_route53_records.
  - apply orderly_deploy_full_infrastructure.
  - apply orderly_get_status.
Qed.

Lemma state_after_bind_cases {A B} (m : M A) (k : A -> M B) w st :
  state_after (bind m k) w st = state_after m w st
  \/ exists a, state_after (bind m k) w st
               = state_after (k a) w (state_after m w st).
Proof.
  unfold state_after, bind.
  destruct (m w st) as [[a|e] st']; simpl; [right; now exists a | now left].
Qed.

(** What every operation keeps true of the object. *)
Lemma perform_keeps (self : BlogInfrastructure) (op : operation)
    (w : world) (st : state) :
  let ok (s : state) :=
    Forall (fun k => is_Some (resources s !! k)) init_slots
    /\ resources s !! "bucket_name" = Some (Some (bucket_name self))
    /\ Forall (fun r => match bucket_of r with
                        | Some b => b = bucket_name self
                        | None => True
                        end) (calls s) in
  ok st -> ok (state_after (perform self op) w st).
Proof.
  intros ok (Hslots & Hbucket & Hcalls).
  destruct (perform_confined self op w st) as [(l & Hl & HP) Hframe].
  destruct (orderly_perform self op w st) as [_ Hdom].
  split; [|split].
  - eapply Forall_impl; [exact Hslots|]. intros k Hk. simpl in *.
    apply elem_of_dom. apply Hdom. now apply elem_of_dom.
  - rewrite Hframe; [exact Hbucket|].
    destruct op; simpl; intros H;
      repeat (apply elem_of_cons in H as [H|H]; [discriminate|]);
      now apply elem_of_nil in H.
  - rewrite Hl. apply Forall_app. split; [exact Hcalls|].
    eapply Forall_impl; [exact HP|]. intros r [_ Hb].
    destruct (bucket_of r); auto.
Qed.

(** X4.  After any sequence of operations on a freshly constructed object,
    whatever the provider answered and even if the sequence was cut short
    by an escaping error, the four slots the constructor created are still
    in the ledger (so the lookups of [get_status] cannot miss), the
    [bucket_name] slot still holds the domain, and every call made to the
    object store named the bucket of the object. *)
Theorem ledger_after_any_sequence (D region : string)
    (ops : list operation) (w : world) :
  let self := __init__ D region in
  let st' := state_after (perform_all self ops) w (init_state self) in
  Forall (fun k => is_Some (resources st' !! k)) init_slots
  /\ resources st' !! "bucket_name" = Some (Some D)
  /\ Forall (fun r => match bucket_of r with
                      | Some b => b = D
                      | None => True
                      end) (calls st').
Proof.
  intros self st'. subst st'.
  assert (H0 : Forall (fun k => is_Some (resources (init_state self) !! k))
                 init_slots
               /\ resources (init_state self) !! "bucket_name"
                  = Some (Some (bucket_name self))
               /\ Forall (fun r => match bucket_of r with
                                   | Some b => b = bucket_name self
                                   | None => True
                                   end) (calls (init_state self))).
  { split; [|split; [reflexivity | constructor]].
    unfold init_slots. repeat constructor; simpl; eexists; reflexivity. }
  change D with (bucket_name self).
  generalize dependent (init_state self).
  induction ops as [|op ops IH]; intros st H0; simpl.
  - exact H0.
  - destruct (state_after_bind_cases (perform self op)
                (fun _ => perform_all self ops) w st) as [E | [a E]];
      rewrite E.
    + now apply (perform_keeps self op w st).
    + apply IH. now apply (perform_keeps self op w st).
Qed.

(** ** Bucket creation, call by call *)

(** X5.  The bucket stage creates the bucket with a location constraint
    equal to the client's region, except in us-east-1 where none is sent.
    When the provider accepts the creation and the versioning call, the
    stage has made exactly three calls: the creation, versioning set to
    "Enabled", and a public access block with all four flags on.  When the
    creation is accepted but versioning is rejected, the stage stops
    there: the public access block is never requested. *)
Theorem create_s3_bucket_calls (self : BlogInfrastructure) (w : world)
    (st : state) :
  let create :=
    S3_create_bucket (bucket_name self)
      (if String.eqb (region_name self) "us-east-1" then None
       else Some (region_name self)) in
  let versioning := S3_put_bucket_versioning (bucket_name self) "Enabled" in
  let block :=
    S3_put_public_access_block (bucket_name self)
      {| pab_BlockPublicAcls := true; pab_IgnorePublicAcls := true;
         pab_BlockPublicPolicy := true; pab_RestrictPublicBuckets := true |} in
  api w (calls st) create = Returned tt ->
  (api w (calls st ++ [create]) versioning = Returned tt ->
   issued (create_s3_bucket self) w st = [create; versioning; block])
  /\ (forall e,
        api w (calls st ++ [create]) versioning = Raised e ->
        issued (create_s3_bucket self) w st = [create; versioning]
        /\ result_of (create_s3_bucket self) w st
           = Returned (String.eqb (error_code e) "BucketAlreadyOwnedByYou")).
Proof.
  intros create versioning block Hc.
  pose proof (create_s3_bucket_run self w st) as Hrun. cbv zeta in Hrun.
  unfold create_bucket_request, public_access_block in Hrun.
  fold create versioning block in Hrun. rewrite Hc in Hrun.
  split.
  - intros Hv. rewrite Hv in Hrun. apply issued_app. unfold state_after.
    rewrite Hrun. now destruct (api w _ block).
  - intros e He. rewrite He in Hrun. unfold result_of. split.
    + apply issued_app. unfold state_after. now rewrite Hrun.
    + now rewrite Hrun.
Qed.

(** ** The certificate slot *)

(** X6.  [request_ssl_certificate] returns the identifier the provider
    gives and leaves that same identifier in the [certificate_arn] slot;
    when the provider rejects the request it returns [None] and the
    ledger is exactly as before, so an identifier stored earlier is
    kept. *)
Theorem request_ssl_certificate_ledger (self : BlogInfrastructure)
    (w : world) (st : state) :
  let m := request_ssl_certificate self in
  (forall arn,
     result_of m w st = Returned (Some arn) <->
     api w (calls st) (ACM_request_certificate (certificate_request self))
     = Returned arn)
  /\ (forall arn,
        result_of m w st = Returned (Some arn) ->
        resource "certificate_arn" (state_after m w st) = Some arn)
  /\ (result_of m w st = Returned None ->
      resources (state_after m w st) = resources st).
Proof.
  intros m. subst m. unfold result_of, state_after, resource.
  rewrite request_ssl_certificate_run. cbv zeta.
  destruct (api w (calls st) _) as [arn'|e]; simpl.
  - split; [|split].
    + intros arn. split; congruence.
    + intros arn [= ->]. now rewrite lookup_insert_eq.
    + discriminate.
  - split; [|split].
    + intros arn. split; discriminate.
    + discriminate.
    + reflexivity.
Qed.

(** ** What a zone lookup means *)

Lemma first_matching_zone_some (self : BlogInfrastructure)
    (zones : list HostedZone) (zone : HostedZone) :
  first_matching_zone self zones = Some zone ->
  In zone zones /\ zone_matches self zone.
Proof.
  unfold first_matching_zone. intros H.
  apply List.find_some in H as [Hin Hm]. split; [exact Hin|].
  now apply zone_matchesb_spec.
Qed.

(** X7.  An identifier returned by [get_hosted_zone_id] is the identifier
    of a zone in the provider's listing whose name is the apex domain
    followed only by dots (none, one or more), and it is then also the
    value of the [hosted_zone_id] slot.  A lookup that returns [None]
    leaves the ledger untouched: an identifier found by an earlier lookup
    stays. *)
Theorem get_hosted_zone_id_sound (self : BlogInfrastructure) (w : world)
    (st : state) :
  let m := get_hosted_zone_id self in
  (forall id,
     result_of m w st = Returned (Some id) ->
     (exists zones zone n,
        api w (calls st) Route53_list_hosted_zones = Returned zones
        /\ In zone zones
        /\ hz_Id zone = id
        /\ hz_Name zone = domain_name self +:+ repeat_char "." n)
     /\ resource "hosted_zone_id" (state_after m w st) = Some id)
  /\ (result_of m w st = Returned None ->
      resources (state_after m w st) = resources st).
Proof.
  intros m. subst m. unfold result_of, state_after, resource.
  rewrite get_hosted_zone_id_run. simpl. unfold resolved_zone.
  destruct (api w (calls st) Route53_list_hosted_zones) as [zones|e]; simpl.
  - destruct (first_matching_zone self zones) as [zone|] eqn:Ez; simpl.
    + split; [|discriminate]. intros id [= <-].
      apply first_matching_zone_some in Ez as [Hin Hm].
      apply zone_matches_iff in Hm as [_ [n Hn]].
      split; [|now rewrite lookup_insert_eq].
      exists zones, zone, n. auto.
    + split; [discriminate | reflexivity].
  - split; [discriminate | reflexivity].
Qed.

(** X8.  When the domain is given with a trailing dot, no zone name can
    equal it once its own trailing dots are stripped: the zone lookup
    returns [None] for every listing, and the DNS publisher returns
    [False] after the listing, without any change request. *)
Theorem trailing_dot_domain_never_resolves (self : BlogInfrastructure)
    (cloudfront_domain : string) (w : world) (st : state) :
  last_char (domain_name self) = Some "."%char ->
  result_of (get_hosted_zone_id self) w st = Returned None
  /\ result_of (create_route53_records self cloudfront_domain) w st
     = Returned false
  /\ issued (create_route53_records self cloudfront_domain) w st
     = [Route53_list_hosted_zones].
Proof.
  intros Hdot.
  assert (Hnone : resolved_zone self w st = None).
  { unfold resolved_zone.
    destruct (api w (calls st) Route53_list_hosted_zones) as [zones|];
      [|reflexivity].
    rewrite first_matching_zone_none; [reflexivity|].
    apply Forall_forall. intros z _ Hm. unfold zone_matches in Hm.
    apply (rstrip_last "." (hz_Name z)). now rewrite Hm. }
  split.
  - unfold result_of. rewrite get_hosted_zone_id_run. simpl.
    now rewrite Hnone.
  - destruct (create_route53_records_cases self cloudfront_domain w st)
      as [(_ & Hr & Hi) | [(z & e & Hz & _) | (z & Hz & _)]];
      [auto | congruence | congruence].
Qed.

(** ** The distribution provisioner, outcome by outcome *)

(** X9.  When the origin-access-control and the distribution are created
    but the STS lookup of the account then fails,
    [create_cloudfront_distribution] returns [None] although the
    distribution exists: the ledger already holds its identifier and
    domain name, and no bucket policy has been put. *)
Theorem create_cloudfront_distribution_sts_failure
    (self : BlogInfrastructure) (certificate_arn : string) (w : world)
    (st : state) (oac_id : string) (d : Distribution) (e : ClientError) :
  let m := create_cloudfront_distribution self certificate_arn in
  let r_oac := create_oac_request self in
  let r_dist :=
    CloudFront_create_distribution
      (distribution_config self certificate_arn oac_id (clock w)) in
  api w (calls st) r_oac = Returned oac_id ->
  api w (calls st ++ [r_oac]) r_dist = Returned d ->
  api w (calls st ++ [r_oac; r_dist]) STS_get_caller_identity = Raised e ->
  result_of m w st = Returned None
  /\ resource "distribution_id" (state_after m w st) = Some (dist_Id d)
  /\ resource "cloudfront_domain" (state_after m w st)
     = Some (dist_DomainName d)
  /\ issued m w st = [r_oac; r_dist; STS_get_caller_identity]
  /\ bucket_policies (issued m w st) = [].
Proof.
  intros m r_oac r_dist Hoac Hdist Hsts. subst m.
  rewrite create_cloudfront_distribution_issued. cbv zeta.
  unfold result_of, state_after, resource.
  rewrite create_cloudfront_distribution_run. cbv zeta.
  fold r_oac. rewrite Hoac. fold r_dist. rewrite Hdist, Hsts. simpl.
  rewrite lookup_insert_ne by discriminate.
  rewrite !lookup_insert_eq. auto.
Qed.

(** X10.  When the origin-access-control, the distribution and the STS
    lookup succeed, [create_cloudfront_distribution] returns the
    distribution's identifier whether or not the bucket policy is
    accepted.  The run threads the provider's answers through its calls:
    the distribution's origin carries the origin-access-control identifier
    just returned, and the bucket policy names the account STS returned
    and the distribution identifier just returned.  The ledger holds that
    identifier and the distribution's domain name. *)
Theorem create_cloudfront_distribution_success
    (self : BlogInfrastructure) (certificate_arn : string) (w : world)
    (st : state) (oac_id : string) (d : Distribution) (account : string) :
  let m := create_cloudfront_distribution self certificate_arn in
  let r_oac := create_oac_request self in
  let r_dist :=
    CloudFront_create_distribution
      (distribution_config self certificate_arn oac_id (clock w)) in
  api w (calls st) r_oac = Returned oac_id ->
  api w (calls st ++ [r_oac]) r_dist = Returned d ->
  api w (calls st ++ [r_oac; r_dist]) STS_get_caller_identity
  = Returned account ->
  result_of m w st = Returned (Some (dist_Id d))
  /\ resource "distribution_id" (state_after m w st) = Some (dist_Id d)
  /\ resource "cloudfront_domain" (state_after m w st)
     = Some (dist_DomainName d)
  /\ map origin_OriginAccessControlId
       (concat (map (fun cfg => origins_Items (dc_Origins cfg))
                  (distribution_configs (issued m w st))))
     = [oac_id]
  /\ change_requests (issued m w st) = []
  /\ exists policy,
       issued m w st
       = [r_oac; r_dist; STS_get_caller_identity;
          S3_put_bucket_policy (bucket_name self) policy]
       /\ map ps_Condition_StringEquals_SourceArn (bp_Statement policy)
          = [ "arn:aws:cloudfront::" +:+ account +:+ ":distribution/"
                +:+ dist_Id d ]
       /\ map ps_Resource (bp_Statement policy)
          = [ "arn:aws:s3:::" +:+ bucket_name self +:+ "/*" ].
Proof.
  intros m r_oac r_dist Hoac Hdist Hsts. subst m.
  rewrite create_cloudfront_distribution_issued. cbv zeta.
  unfold result_of, state_after, resource.
  rewrite create_cloudfront_distribution_run. cbv zeta.
  fold r_oac. rewrite Hoac. fold r_dist. rewrite Hdist, Hsts. simpl.
  rewrite lookup_insert_ne by discriminate.
  rewrite !lookup_insert_eq.
  repeat split. eexists. repeat split.
Qed.

(** X11.  When the origin-access-control or the distribution cannot be
    created, [create_cloudfront_distribution] returns [None], leaves the
    whole ledger as it was, and calls neither STS nor the object store.
    An origin-access-control created before a rejected distribution is
    left behind: no call removes it. *)
Theorem create_cloudfront_distribution_early_failure
    (self : BlogInfrastructure) (certificate_arn : string) (w : world)
    (st : state) :
  let m := create_cloudfront_distribution self certificate_arn in
  let r_oac := create_oac_request self in
  (forall e, api w (calls st) r_oac = Raised e ->
     result_of m w st = Returned None
     /\ resources (state_after m w st) = resources st
     /\ issued m w st = [r_oac])
  /\ (forall oac_id e,
        api w (calls st) r_oac = Returned oac_id ->
        api w (calls st ++ [r_oac])
          (CloudFront_create_distribution
             (distribution_config self certificate_arn oac_id (clock w)))
        = Raised e ->
        result_of m w st = Returned None
        /\ resources (state_after m w st) = resources st
        /\ issued m w st
           = [ r_oac;
               CloudFront_create_distribution
                 (distribution_config self certificate_arn oac_id
                    (clock w)) ]).
Proof.
  intros m r_oac. subst m.
  rewrite create_cloudfront_distribution_issued. cbv zeta.
  unfold result_of, state_after.
  rewrite create_cloudfront_distribution_run. cbv zeta. fold r_oac.
  split.
  - intros e ->. auto.
  - intros oac_id e -> ->. auto.
Qed.

(** X12.  Every distribution configuration submitted is consistent with
    itself: the declared quantities of origins and of aliases equal the
    lengths of the lists, the default cache behaviour targets an origin
    that is in the list, and each origin is the bucket's S3 endpoint with
    the legacy origin-access-identity left empty.  It forwards neither
    query strings nor cookies. *)
Theorem distribution_config_consistent (self : BlogInfrastructure)
    (certificate_arn : string) (w : world) (st : state) :
  Forall (fun cfg =>
            origins_Quantity (dc_Origins cfg)
            = Z.of_nat (length (origins_Items (dc_Origins cfg)))
            /\ aliases_Quantity (dc_Aliases cfg)
               = Z.of_nat (length (aliases_Items (dc_Aliases cfg)))
            /\ In (dcb_TargetOriginId (dc_DefaultCacheBehavior cfg))
                 (map origin_Id (origins_Items (dc_Origins cfg)))
            /\ Forall (fun o =>
                         origin_DomainName o
                         = bucket_name self +:+ ".s3.amazonaws.com"
                         /\ origin_S3OriginConfig_OriginAccessIdentity o = "")
                 (origins_Items (dc_Origins cfg))
            /\ dcb_ForwardedValues (dc_DefaultCacheBehavior cfg)
               = {| fv_QueryString := false; fv_Cookies_Forward := "none" |})
    (distribution_configs
       (issued (create_cloudfront_distribution self certificate_arn) w st)).
Proof.
  rewrite create_cloudfront_distribution_configs.
  destruct (api w (calls st) (create_oac_request self)) as [oac_id|];
    [|constructor].
  constructor; [|constructor]. simpl.
  repeat split; auto.
Qed.

(** ** The DNS record publisher, outcome by outcome *)

(** X13.  [create_route53_records] returns [True] exactly when the zone
    lookup yields a non-empty identifier and the provider accepts both
    changes. *)
Theorem create_route53_records_true_iff (self : BlogInfrastructure)
    (cloudfront_domain : string) (w : world) (st : state) :
  let upsert zone_id name :=
    Route53_change_resource_record_sets zone_id
      (alias_change name cloudfront_domain) in
  result_of (create_route53_records self cloudfront_domain) w st
  = Returned true
  <-> exists zone_id,
        resolved_zone self w st = Some zone_id /\ zone_id <> ""
        /\ api w (calls st ++ [Route53_list_hosted_zones])
             (upsert zone_id (domain_name self)) = Returned tt
        /\ api w (calls st ++ [Route53_list_hosted_zones;
                               upsert zone_id (domain_name self)])
             (upsert zone_id (www_domain self)) = Returned tt.
Proof.
  intros upsert.
  destruct (create_route53_records_cases self cloudfront_domain w st)
    as [(Hz & Hr & _) | [(z & e & Hz & Hne & Ha & Hr & _)
                        | (z & Hz & Hne & Ha & Hr & _)]];
    rewrite Hr.
  - split; [discriminate|]. intros (z & Hz' & Hne & _).
    rewrite Hz' in Hz. simpl in Hz.
    apply String.eqb_neq in Hne. rewrite Hne in Hz. discriminate.
  - split; [discriminate|]. intros (z' & Hz' & _ & Ha' & _).
    rewrite Hz in Hz'. injection Hz' as <-.
    fold (upsert z (domain_name self)) in Ha. rewrite Ha in Ha'.
    discriminate.
  - fold (upsert z (domain_name self)) in *.
    fold (upsert z (www_domain self)) in *. split.
    + intros H. exists z. split; [exact Hz|]. split; [exact Hne|].
      split; [exact Ha|].
      destruct (api w _ (upsert z (www_domain self))) as [[]|];
        [reflexivity | discriminate].
    + intros (z' & Hz' & _ & _ & Hw). rewrite Hz in Hz'.
      injection Hz' as <-. now rewrite Hw.
Qed.

(** X14.  When the apex change is accepted and the www change is
    rejected, [create_route53_records] returns [False] with the apex
    record already submitted: it makes no further call, so nothing undoes
    it.  The zone identifier it used is the one it has just stored in the
    ledger. *)
Theorem create_route53_records_partial (self : BlogInfrastructure)
    (cloudfront_domain : string) (w : world) (st : state)
    (zone_id : string) (e : ClientError) :
  let m := create_route53_records self cloudfront_domain in
  let upsert name :=
    Route53_change_resource_record_sets zone_id
      (alias_change name cloudfront_domain) in
  resolved_zone self w st = Some zone_id -> zone_id <> "" ->
  api w (calls st ++ [Route53_list_hosted_zones])
    (upsert (domain_name self)) = Returned tt ->
  api w (calls st ++ [Route53_list_hosted_zones; upsert (domain_name self)])
    (upsert (www_domain self)) = Raised e ->
  result_of m w st = Returned false
  /\ issued m w st
     = [ Route53_list_hosted_zones; upsert (domain_name self);
         upsert (www_domain self) ]
  /\ resource "hosted_zone_id" (state_after m w st) = Some zone_id.
Proof.
  intros m upsert Hz Hne Ha Hw.
  assert (Hledger : resource "hosted_zone_id" (state_after m w st)
                    = Some zone_id).
  { subst m. unfold state_after, create_route53_records, bind.
    rewrite get_hosted_zone_id_run, Hz. simpl.
    apply String.eqb_neq in Hne. rewrite Hne. simpl.
    unfold try_except, bind, call, ret, with_resource, with_calls. simpl.
    fold (upsert (domain_name self)). rewrite Ha. simpl.
    rewrite <- ?app_assoc. simpl.
    fold (upsert (domain_name self)). fold (upsert (www_domain self)).
    rewrite Hw. simpl.
    unfold resource. simpl. now rewrite lookup_insert_eq. }
  destruct (create_route53_records_cases self cloudfront_domain w st)
    as [(Hz' & _) | [(z & e' & Hz' & _ & Ha' & _)
                    | (z & Hz' & _ & _ & Hr & Hi)]].
  - rewrite Hz in Hz'. simpl in Hz'.
    apply String.eqb_neq in Hne. rewrite Hne in Hz'. discriminate.
  - rewrite Hz in Hz'. injection Hz' as <-.
    fold (upsert (domain_name self)) in Ha'. rewrite Ha in Ha'.
    discriminate.
  - rewrite Hz in Hz'. injection Hz' as <-. fold m in Hr, Hi.
    fold (upsert (domain_name self)) in Hr, Hi.
    fold (upsert (www_domain self)) in Hr, Hi.
    rewrite Hw in Hr. auto.
Qed.

(** ** The pipeline's report *)

(** A run of [deploy_full_infrastructure] in terms of its two stages. *)
Lemma deploy_full_infrastructure_run (self : BlogInfrastructure)
    (w : world) (st : state) :
  let st1 := state_after (create_s3_bucket self) w st in
  let req := ACM_request_certificate (certificate_request self) in
  deploy_full_infrastructure self w st =
  match result_of (create_s3_bucket self) w st with
  | Returned true =>
      match api w (calls st1) req with
      | Returned arn =>
          (Returned
             (if String.eqb arn ""
              then failure_report StageCertificate
              else <["success" := VBool true]>
                   (<["step" := VStr "Certificate validation required"]>
                   (<["certificate_arn" := VStr arn]>
                   (<["next_steps" := VStrList next_steps]> ∅)))),
           with_resource "certificate_arn" (Some arn) (with_calls st1 [req]))
      | Raised _ =>
          (Returned (failure_report StageCertificate), with_calls st1 [req])
      end
  | _ => (Returned (failure_report StageBucket), st1)
  end.
Proof.
  cbv zeta. unfold result_of, state_after, deploy_full_infrastructure.
  unfold bind at 1.
  pose proof (create_s3_bucket_result self w st) as Hb. unfold result_of in Hb.
  destruct (create_s3_bucket self w st) as [r1 st1]. simpl in *. subst r1.
  destruct (match bucket_stage_error self w st with
            | Some e => already_owned e
            | None => true
            end); simpl; [|reflexivity].
  unfold bind. rewrite request_ssl_certificate_run. cbv zeta.
  destruct (api w (calls st1) _) as [arn|e]; simpl; [|reflexivity].
  now destruct (String.eqb arn "").
Qed.

(** X15.  When [deploy_full_infrastructure] reports success, both stages
    went through: the bucket stage returned [True], the provider answered
    the certificate request with a non-empty identifier, and that
    identifier is both the [certificate_arn] of the report and the value
    of the ledger's [certificate_arn] slot.  The report also carries the
    step "Certificate validation required" and the three next steps. *)
Theorem deploy_success_report (self : BlogInfrastructure) (w : world)
    (st : state) (report : gmap string value) :
  let m := deploy_full_infrastructure self in
  result_of m w st = Returned report ->
  report !! "success" = Some (VBool true) ->
  result_of (create_s3_bucket self) w st = Returned true
  /\ exists arn,
       arn <> ""
       /\ api w (calls (state_after (create_s3_bucket self) w st))
            (ACM_request_certificate (certificate_request self))
          = Returned arn
       /\ report
          = <["success" := VBool true]>
            (<["step" := VStr "Certificate validation required"]>
            (<["certificate_arn" := VStr arn]>
            (<["next_steps" :=
                 VStrList
                   [ "Validate SSL certificate in ACM console";
                     "Run create_cloudfront_distribution() when certificate is issued";
                     "Run create_route53_records() after CloudFront is deployed" ]]>
             ∅)))
       /\ resource "certificate_arn" (state_after m w st) = Some arn.
Proof.
  intros m. subst m. unfold result_of at 1, state_after at 2.
  rewrite deploy_full_infrastructure_run. cbv zeta.
  destruct (result_of (create_s3_bucket self) w st) as [[|]|e]; simpl.
  - destruct (api w _ _) as [arn|e]; simpl.
    + destruct (String.eqb_spec arn "") as [->|Hne].
      * intros [= <-] H. unfold failure_report in H.
        rewrite lookup_insert_eq in H. discriminate.
      * intros [= <-] _. split; [reflexivity|]. exists arn.
        split; [exact Hne|]. split; [reflexivity|]. split; [reflexivity|].
        unfold resource. simpl. now rewrite lookup_insert_eq.
    + intros [= <-] H. unfold failure_report in H.
      rewrite lookup_insert_eq in H. discriminate.
  - intros [= <-] H. unfold failure_report in H.
    rewrite lookup_insert_eq in H. discriminate.
  - intros [= <-] H. unfold failure_report in H.
    rewrite lookup_insert_eq in H. discriminate.
Qed.

(** ** The status query *)

Lemma get_status_issued (self : BlogInfrastructure) (w : world)
    (st : state) :
  issued (get_status self) w st
  = S3_head_bucket (bucket_name self)
      :: certificate_query st ++ distribution_query st.
Proof.
  apply issued_app. unfold state_after. rewrite get_status_run. reflexivity.
Qed.



(** ** The validation records *)

Lemma validation_records_fields (options : list DomainValidationOption) :
  map (fun rec : gmap string string =>
         (rec !! "domain", rec !! "name", rec !! "value", rec !! "type"))
    (concat (map validation_record options))
  = omap (fun o =>
            match dvo_ResourceRecord o with
            | Some rr =>
                Some (Some (dvo_DomainName o), Some (rr_Name rr),
                      Some (rr_Value rr), Some (rr_Type rr))
            | None => None
            end) options.
Proof.
  induction options as [|o options IH]; simpl; [reflexivity|].
  rewrite map_app, IH. unfold validation_record at 1.
  destruct (dvo_ResourceRecord o) as [rr|]; simpl; [|reflexivity].
  repeat (rewrite lookup_insert_eq
          || (rewrite lookup_insert_ne by discriminate)).
  reflexivity.
Qed.

Lemma validation_records_size (options : list DomainValidationOption) :
  Forall (fun rec : gmap string string => size rec = 4%nat)
    (concat (map validation_record options)).
Proof.
  induction options as [|o options IH]; simpl; [constructor|].
  apply Forall_app. split; [|exact IH]. unfold validation_record.
  destruct (dvo_ResourceRecord o) as [rr|]; constructor; [|constructor].
  repeat (rewrite map_size_insert_None;
          [|repeat (rewrite lookup_insert_ne by discriminate);
            apply lookup_empty]).
  now rewrite map_size_empty.
Qed.

(** X18.  [get_certificate_validation_records] makes one query and never
    touches the ledger.  From the certificate description it returns one
    record per validation option that carries a resource record, in the
    provider's order, skipping the options that carry none; each record
    has exactly the four keys domain, name, value and type, taken from the
    option.  When the query fails it returns the empty list. *)
Theorem get_certificate_validation_records_spec (certificate_arn : string)
    (w : world) (st : state) :
  let m := get_certificate_validation_records certificate_arn in
  (forall c,
     api w (calls st) (ACM_describe_certificate certificate_arn) = Returned c ->
     exists records,
       result_of m w st = Returned records
       /\ map (fun rec : gmap string string =>
                 (rec !! "domain", rec !! "name", rec !! "value",
                  rec !! "type")) records
          = omap (fun o =>
                    match dvo_ResourceRecord o with
                    | Some rr =>
                        Some (Some (dvo_DomainName o), Some (rr_Name rr),
                              Some (rr_Value rr), Some (rr_Type rr))
                    | None => None
                    end) (cert_DomainValidationOptions c)
       /\ Forall (fun rec : gmap string string => size rec = 4%nat) records)
  /\ (forall e,
        api w (calls st) (ACM_describe_certificate certificate_arn) = Raised e ->
        result_of m w st = Returned [])
  /\ issued m w st = [ACM_describe_certificate certificate_arn]
  /\ resources (state_after m w st) = resources st.
Proof.
  intros m. subst m.
  rewrite get_certificate_validation_records_result.
  split; [|split; [|split]].
  - intros c ->. eexists. split; [reflexivity|]. split.
    + apply validation_records_fields.
    + apply validation_records_size.
  - now intros e ->.
  - apply issued_app. unfold state_after,
      get_certificate_validation_records, try_except, bind, call, ret.
    simpl. now destruct (api w (calls st) _).
  - unfold state_after, get_certificate_validation_records, try_except,
      bind, call, ret. simpl. now destruct (api w (calls st) _).
Qed.

(** ** The command line *)

(** Running a core operation in the command-line layer. *)
Lemma lift_run {A} (m : M A) (w : cli_world) (st : cli_state) :
  let w' := core_world w (cli_calls st) in
  let st0 := {| resources := cli_resources st; calls := [] |} in
  lift m w st
  = (result_of m w' st0,
     {| cli_resources := resources (state_after m w' st0);
        cli_calls := cli_calls st ++ map Core (issued m w' st0) |}).
Proof.
  cbv zeta. unfold lift, issued, result_of, state_after. simpl.
  now destruct (m _ _) as [r st'].
Qed.

(** X19.  [upload_sample_content] makes exactly one call: it puts one
    object in the bucket of the object, under the key "index.html", with
    content type "text/html".  The body is the page template of the
    source, its thirty lines joined by line feeds, with the domain in the
    title line and in the heading line and nowhere else.  A rejected
    upload is swallowed: the operation returns normally either way, and it
    never touches the ledger. *)
Theorem upload_sample_content_put (self : BlogInfrastructure)
    (w : cli_world) (st : cli_state) :
  let m := upload_sample_content self in
  let D := domain_name self in
  cli_result_of m w st = Returned tt
  /\ cli_resources (cli_state_after m w st) = cli_resources st
  /\ cli_calls (cli_state_after m w st)
     = cli_calls st
       ++ [S3_put_object (bucket_name self) "index.html"
             (String.concat nl
                [
      "<!DOCTYPE html>";
      "<html lang=" +:+ dq +:+ "en" +:+ dq +:+ ">";
      "<head>";
      "    <meta charset=" +:+ dq +:+ "UTF-8" +:+ dq +:+ ">";
      "    <meta name=" +:+ dq +:+ "viewport" +:+ dq +:+ " content=" +:+
        dq +:+ "width=device-width, initial-scale=1.0" +:+ dq +:+ ">";
      "    <title>Welcome to " +:+ D +:+ "</title>";
      "    <style>";
      "        body { font-family: Arial, sans-serif; max-width: 800px; margin: 0 auto; padding: 20px; }";
      "        .header { text-align: center; margin-bottom: 40px; }";
      "        .content { line-height: 1.6; }";
      "    </style>";
      "</head>";
      "<body>";
      "    <div class=" +:+ dq +:+ "header" +:+ dq +:+ ">";
      "        <h1>Welcome to " +:+ D +:+ "</h1>";
      "        <p>Your secure AWS blog is now live!</p>";
      "    </div>";
      "    <div class=" +:+ dq +:+ "content" +:+ dq +:+ ">";
      "        <h2>Setup Complete</h2>";
      "        <p>Your blog infrastructure has been successfully deployed with:</p>";
      "        <ul>";
      "            <li>✓ S3 bucket for static content storage</li>";
      "            <li>✓ CloudFront CDN for fast, secure delivery</li>";
      "            <li>✓ SSL certificate for HTTPS</li>";
      "            <li>✓ Route53 DNS configuration</li>";
      "        </ul>";
      "        <p>You can now upload your blog content to replace this page.</p>";
      "    </div>";
      "</body>";
      "</html>"
                ])
             "text/html"].
Proof.
  intros m D. subst m D.
  unfold cli_result_of, cli_state_after, upload_sample_content,
    cli_try_except, cli_bind, cli_call, cli_ret. simpl.
  split; [now destruct (cli_api w _ _) as [[]|]|].
  split; [now destruct (cli_api w _ _) as [[]|]|].
  destruct (cli_api w _ _) as [[]|]; simpl; unfold sample_html;
    reflexivity.
Qed.

(** X20.  From the command line, the action "status" makes exactly one
    provider call, the presence probe of the bucket named after the
    domain, whatever the provider answers: the ledger of a new process
    holds no certificate or distribution identifier, so neither is ever
    queried.  The run ends normally. *)
Theorem main_status_probes_only (domain region : string) (w : cli_world) :
  run_main domain region "status" w
  = (Returned tt,
     {| cli_resources := init_resources (__init__ domain region);
        cli_calls := [Core (S3_head_bucket domain)] |}).
Proof.
  unfold run_main, main. simpl. unfold cli_bind.
  rewrite lift_run. cbv zeta. unfold result_of, state_after.
  rewrite get_status_issued, get_status_run. cbv zeta. simpl.
  reflexivity.
Qed.

Lemma create_s3_bucket_length (self : BlogInfrastructure) (w : world)
    (st : state) :
  exists l, calls (state_after (create_s3_bucket self) w st) = calls st ++ l
            /\ (length l <= 3)%nat.
Proof.
  unfold state_after. rewrite create_s3_bucket_run. cbv zeta.
  repeat match goal with
         | |- context [api ?w ?h ?r] => destruct (api w h r); simpl
         end; eexists; (split; [reflexivity | simpl; lia]).
Qed.

Lemma deploy_full_infrastructure_length (self : BlogInfrastructure)
    (w : world) (st : state) :
  (length (issued (deploy_full_infrastructure self) w st) <= 4)%nat.
Proof.
  destruct (create_s3_bucket_length self w st) as (l1 & H1 & Hlen).
  assert (H : exists l,
             calls (state_after (deploy_full_infrastructure self) w st)
             = calls st ++ l /\ (length l <= 4)%nat).
  { unfold state_after at 1. rewrite deploy_full_infrastructure_run.
    cbv zeta.
    destruct (result_of (create_s3_bucket self) w st) as [[|]|e]; simpl;
      [destruct (api w _ _); simpl|..]; rewrite H1;
      try (exists l1; split; [reflexivity | lia]);
      (exists (l1 ++ [ACM_request_certificate (certificate_request self)]);
       split; [now rewrite app_assoc | rewrite length_app; simpl; lia]). }
  destruct H as (l & Hl & Hle). now rewrite (issued_app _ _ _ _ Hl).
Qed.

(** X21.  A run from the command line never ends in an escaping
    [ClientError], whatever the action and the provider's answers.  The
    action "deploy" only calls the object store and ACM, at most four
    times, and never puts an object; "upload-sample" makes the single
    upload; any other action string makes no call at all. *)
Theorem main_never_raises (domain region action : string) (w : cli_world) :
  let st' := (run_main domain region action w).2 in
  (run_main domain region action w).1 = Returned tt
  /\ (action = "deploy" ->
      exists l : list request,
        cli_calls st' = map Core l
        /\ Forall (fun r => service_of r ∈ [S3; ACM]) l
        /\ (length l <= 4)%nat)
  /\ (action = "upload-sample" ->
      cli_calls st'
      = [S3_put_object domain "index.html"
           (sample_html (__init__ domain region)) "text/html"])
  /\ (action <> "deploy" -> action <> "status" ->
      action <> "upload-sample" -> cli_calls st' = []).
Proof.
  intros st'. subst st'. unfold run_main, main.
  set (self := __init__ domain region).
  destruct (String.eqb_spec action "deploy") as [->|Hd].
  { unfold cli_bind. rewrite lift_run. cbv zeta. simpl.
    destruct (never_raises_deploy_full_infrastructure self
                (core_world w []) {| resources := init_resources self;
                                     calls := [] |}) as [a Ha].
    rewrite Ha. simpl. split; [reflexivity|].
    split; [|split; [discriminate | congruence]].
    intros _. eexists. split; [reflexivity|].
    destruct (confined_issued _ _ _ (core_world w [])
                {| resources := init_resources self; calls := [] |}
                (perform_confined self Op_deploy_full_infrastructure))
      as [HP _].
    assert (Hi : issued (perform self Op_deploy_full_infrastructure)
                   (core_world w [])
                   {| resources := init_resources self; calls := [] |}
                 = issued (deploy_full_infrastructure self)
                     (core_world w [])
                     {| resources := init_resources self; calls := [] |}).
    { unfold issued, state_after, perform, bind, ret.
      now destruct (deploy_full_infrastructure self _ _) as [[?|?] ?]. }
    rewrite Hi in HP. split.
    - eapply Forall_impl; [exact HP|]. now intros r [Hs _].
    - apply deploy_full_infrastructure_length. }
  destruct (String.eqb_spec action "status") as [->|Hs].
  { unfold cli_bind. rewrite lift_run. cbv zeta. unfold result_of.
    rewrite get_status_run. cbv zeta. simpl. split; [reflexivity|].
    split; [discriminate|]. split; [discriminate | congruence]. }
  destruct (String.eqb_spec action "upload-sample") as [->|Hu].
  { unfold upload_sample_content, cli_try_except, cli_bind, cli_call,
      cli_ret. simpl.
    destruct (cli_api w _ _) as [[]|]; simpl;
      (split; [reflexivity|]; split; [discriminate|];
       split; [reflexivity | congruence]). }
  simpl. split; [reflexivity|]. split; [congruence|].
  split; [congruence | reflexivity].
Qed.

(** A stale ledger changes nothing to what the distribution provisioner
    sends, and the policy it puts names the distribution just created. *)
Lemma later_stages_use_their_arguments_witness :
  let m := create_cloudfront_distribution example_com sample_certificate_arn in
  issued m (accepting_world 0) (stale_state example_com)
  = issued m (accepting_world 0) (init_state example_com)
  /\ bucket_policies (issued m (accepting_world 0) (init_state example_com))
     = [bucket_policy example_com "123456789012" "E2EXAMPLE"].
Proof.
  intros m.
  destruct (later_stages_use_their_arguments example_com (accepting_world 0)
              (init_state example_com))
    as (_ & _ & _ & _ & Hflow & Hblind).
  split.
  - apply (proj1 (Hblind (stale_state example_com) eq_refl)
             sample_certificate_arn).
  - apply (Hflow sample_certificate_arn "E3OACEXAMPLE" sample_distribution
             eq_refl eq_refl).
Defined.

(** Nothing created yet and the probe rejected by the provider: bucket
    "missing", no certificate or distribution field.  The probe refused
    by the client: no snapshot. *)
Lemma get_status_snapshot_unless_other_error_witness :
  (exists status : gmap string value,
     result_of_x (get_status_x example_com)
       (rejecting_world_x is_head_bucket "404") (init_state example_com)
     = Returned_x status
     /\ status !! "s3_bucket" = Some (VStr "missing")
     /\ status !! "certificate_status" = None
     /\ status !! "distribution_status" = None)
  /\ result_of_x (get_status_x empty_domain) validating_world_x
       (init_state empty_domain)
     = Raised_x (Other_error "ParamValidationError").
Proof.
  split.
  - destruct (proj2 (get_status_snapshot_unless_other_error example_com
                       (rejecting_world_x is_head_bucket "404")
                       (init_state example_com)) eq_refl)
      as (status & Hr & _ & _ & _ & Hb & _ & _ & Hfresh & _).
    exists status. split; [exact Hr|]. split; [exact Hb|].
    exact (proj2 (Hfresh eq_refl
                    {| error_code := "404"; error_message := "rejected" |}
                    eq_refl)).
  - apply (proj1 (get_status_snapshot_unless_other_error empty_domain
                    validating_world_x (init_state empty_domain))).
    reflexivity.
Defined.

(** ** The further properties at concrete inputs *)

(** A deployment leaves the zone slot alone. *)
Lemma operation_writes_own_slots_witness :
  resources (state_after (perform example_com Op_deploy_full_infrastructure)
               (accepting_world 0) (init_state example_com))
    !! "hosted_zone_id"
  = resources (init_state example_com) !! "hosted_zone_id".
Proof.
  apply (operation_writes_own_slots example_com
           Op_deploy_full_infrastructure (accepting_world 0)
           (init_state example_com) "hosted_zone_id").
  simpl. intros H. apply elem_of_cons in H as [H|H]; [discriminate|].
  now apply elem_of_nil in H.
Defined.

(** With STS down, no [ClientError] leaves the distribution provisioner,
    and the helper on its own raises. *)
Lemma only_the_policy_helper_raises_witness :
  let w := rejecting_world is_get_caller_identity "AccessDenied" 0 in
  let e := {| error_code := "AccessDenied"; error_message := "rejected" |} in
  result_of (perform example_com
               (Op_create_cloudfront_distribution sample_certificate_arn))
    w (init_state example_com) <> Raised e
  /\ result_of (_update_s3_bucket_policy example_com "E2EXAMPLE") w
       (init_state example_com) = Raised e.
Proof.
  intros w e.
  destruct (only_the_policy_helper_raises example_com w
              (init_state example_com)) as (Hpub & Hiff & _).
  split.
  - apply Hpub. exact I.
  - apply Hiff. reflexivity.
Defined.

(** In eu-west-1 with an accepting provider: three calls, the first with
    the region as location constraint. *)
Lemma create_s3_bucket_calls_witness :
  issued (create_s3_bucket example_com) (accepting_world 0)
    (init_state example_com)
  = [ S3_create_bucket "example.com" (Some "eu-west-1");
      S3_put_bucket_versioning "example.com" "Enabled";
      S3_put_public_access_block "example.com"
        {| pab_BlockPublicAcls := true; pab_IgnorePublicAcls := true;
           pab_BlockPublicPolicy := true;
           pab_RestrictPublicBuckets := true |} ]
  /\ issued (create_s3_bucket example_com)
       (rejecting_world is_put_bucket_versioning "AccessDenied" 0)
       (init_state example_com)
     = [ S3_create_bucket "example.com" (Some "eu-west-1");
         S3_put_bucket_versioning "example.com" "Enabled" ].
Proof.
  split.
  - apply (proj1 (create_s3_bucket_calls example_com (accepting_world 0)
                    (init_state example_com) eq_refl)).
    reflexivity.
  - apply (proj2 (create_s3_bucket_calls example_com
                    (rejecting_world is_put_bucket_versioning
                       "AccessDenied" 0)
                    (init_state example_com) eq_refl)
             {| error_code := "AccessDenied"; error_message := "rejected" |}).
    reflexivity.
Defined.

(** A rejected request keeps the identifier stored before. *)
Lemma request_ssl_certificate_ledger_witness :
  resource "certificate_arn"
    (state_after (request_ssl_certificate example_com) (accepting_world 0)
       (init_state example_com))
  = Some sample_certificate_arn
  /\ resources
       (state_after (request_ssl_certificate example_com)
          (rejecting_world is_request_certificate "LimitExceeded" 0)
          (stale_state example_com))
     = resources (stale_state example_com).
Proof.
  split.
  - apply (proj1 (proj2 (request_ssl_certificate_ledger example_com
                           (accepting_world 0) (init_state example_com)))).
    reflexivity.
  - apply (proj2 (proj2 (request_ssl_certificate_ledger example_com
                           (rejecting_world is_request_certificate
                              "LimitExceeded" 0)
                           (stale_state example_com)))).
    reflexivity.
Defined.

(** The identifier found is also the ledger's. *)
Lemma get_hosted_zone_id_sound_witness :
  resource "hosted_zone_id"
    (state_after (get_hosted_zone_id example_com) (accepting_world 0)
       (init_state example_com))
  = Some "/hostedzone/Z1BBBBBBBBBBBB".
Proof.
  apply (proj1 (get_hosted_zone_id_sound example_com (accepting_world 0)
                  (init_state example_com))
           "/hostedzone/Z1BBBBBBBBBBBB").
  reflexivity.
Defined.

(** "example.com." against a listing that holds the zone "example.com.". *)
Lemma trailing_dot_domain_never_resolves_witness :
  result_of (get_hosted_zone_id example_com_dot) (accepting_world 0)
    (init_state example_com_dot) = Returned None
  /\ result_of (create_route53_records example_com_dot
                  "d111111abcdef8.cloudfront.net")
       (accepting_world 0) (init_state example_com_dot) = Returned false
  /\ issued (create_route53_records example_com_dot
               "d111111abcdef8.cloudfront.net")
       (accepting_world 0) (init_state example_com_dot)
     = [Route53_list_hosted_zones].
Proof.
  apply (trailing_dot_domain_never_resolves example_com_dot
           "d111111abcdef8.cloudfront.net" (accepting_world 0)
           (init_state example_com_dot)).
  reflexivity.
Defined.

(** STS down after the distribution was created. *)
Lemma create_cloudfront_distribution_sts_failure_witness :
  let w := rejecting_world is_get_caller_identity "AccessDenied" 0 in
  let m := create_cloudfront_distribution example_com sample_certificate_arn in
  result_of m w (init_state example_com) = Returned None
  /\ resource "distribution_id" (state_after m w (init_state example_com))
     = Some "E2EXAMPLE".
Proof.
  intros w m.
  destruct (create_cloudfront_distribution_sts_failure example_com
              sample_certificate_arn w (init_state example_com)
              "E3OACEXAMPLE" sample_distribution
              {| error_code := "AccessDenied"; error_message := "rejected" |}
              eq_refl eq_refl eq_refl) as (Hr & Hid & _).
  split; assumption.
Defined.

(** The bucket policy rejected: the identifier is returned all the same. *)
Lemma create_cloudfront_distribution_success_witness :
  let w := rejecting_world is_put_bucket_policy "AccessDenied" 0 in
  let m := create_cloudfront_distribution example_com sample_certificate_arn in
  result_of m w (init_state example_com) = Returned (Some "E2EXAMPLE")
  /\ resource "cloudfront_domain" (state_after m w (init_state example_com))
     = Some "d111111abcdef8.cloudfront.net".
Proof.
  intros w m.
  destruct (create_cloudfront_distribution_success example_com
              sample_certificate_arn w (init_state example_com)
              "E3OACEXAMPLE" sample_distribution "123456789012"
              eq_refl eq_refl eq_refl) as (Hr & _ & Hd & _).
  split; assumption.
Defined.

(** The distribution rejected after the origin-access-control was made. *)
Lemma create_cloudfront_distribution_early_failure_witness :
  let w := rejecting_world is_create_distribution "InvalidViewerCertificate" 0 in
  let m := create_cloudfront_distribution example_com sample_certificate_arn in
  result_of m w (init_state example_com) = Returned None
  /\ resources (state_after m w (init_state example_com))
     = resources (init_state example_com).
Proof.
  intros w m.
  destruct (proj2 (create_cloudfront_distribution_early_failure example_com
                     sample_certificate_arn w (init_state example_com))
              "E3OACEXAMPLE"
              {| error_code := "InvalidViewerCertificate";
                 error_message := "rejected" |}
              eq_refl eq_refl) as (Hr & Hl & _).
  split; assumption.
Defined.

(** Zone found and both changes accepted. *)
Lemma create_route53_records_true_iff_witness :
  result_of (create_route53_records example_com
               "d111111abcdef8.cloudfront.net")
    (accepting_world 0) (init_state example_com) = Returned true.
Proof.
  apply (proj2 (create_route53_records_true_iff example_com
                  "d111111abcdef8.cloudfront.net" (accepting_world 0)
                  (init_state example_com))).
  exists "/hostedzone/Z1BBBBBBBBBBBB".
  split; [reflexivity|]. split; [discriminate|].
  split; reflexivity.
Defined.

(** The www change rejected after the apex change went through. *)
Lemma create_route53_records_partial_witness :
  let w := rejecting_world (is_upsert_of "www.example.com") "Throttling" 0 in
  let m := create_route53_records example_com
             "d111111abcdef8.cloudfront.net" in
  result_of m w (init_state example_com) = Returned false
  /\ map rrs_Name (record_sets (issued m w (init_state example_com)))
     = ["example.com"; "www.example.com"].
Proof.
  intros w m.
  destruct (create_route53_records_partial example_com
              "d111111abcdef8.cloudfront.net" w (init_state example_com)
              "/hostedzone/Z1BBBBBBBBBBBB"
              {| error_code := "Throttling"; error_message := "rejected" |})
    as (Hr & Hi & _); [reflexivity | discriminate | reflexivity
                      | reflexivity |].
  split; [exact Hr|]. fold m in Hi. rewrite Hi. reflexivity.
Defined.

(** The report of a deployment that went through. *)
Lemma deploy_success_report_witness :
  resource "certificate_arn"
    (state_after (deploy_full_infrastructure example_com)
       (accepting_world 0) (init_state example_com))
  = Some sample_certificate_arn.
Proof.
  destruct (deploy_success_report example_com (accepting_world 0)
              (init_state example_com)
              (<["success" := VBool true]>
               (<["step" := VStr "Certificate validation required"]>
               (<["certificate_arn" := VStr sample_certificate_arn]>
               (<["next_steps" := VStrList next_steps]> ∅))))
              eq_refl eq_refl) as (_ & arn & _ & Harn & _ & Hl).
  injection Harn as <-. exact Hl.
Defined.


(** Two options, one without a resource record yet: one record. *)
Lemma get_certificate_validation_records_spec_witness :
  exists records,
    result_of (get_certificate_validation_records sample_certificate_arn)
      validation_world (init_state example_com) = Returned records
    /\ map (fun rec : gmap string string => rec !! "domain") records
       = [Some "example.com"].
Proof.
  destruct (proj1 (get_certificate_validation_records_spec
                     sample_certificate_arn validation_world
                     (init_state example_com))
              sample_certificate eq_refl) as (records & Hr & Hf & _).
  exists records. split; [exact Hr|].
  apply (f_equal (map (fun t => fst (fst (fst t))))) in Hf.
  rewrite map_map in Hf. exact Hf.
Defined.

(** "deploy" from the command line against an accepting provider. *)
Lemma main_never_raises_witness :
  exists l : list request,
    cli_calls (run_main "example.com" "eu-west-1" "deploy"
                 cli_accepting_world).2 = map Core l
    /\ (length l <= 4)%nat.
Proof.
  destruct (proj1 (proj2 (main_never_raises "example.com" "eu-west-1"
                            "deploy" cli_accepting_world)) eq_refl)
    as (l & Hl & _ & Hlen).
  exists l. split; assumption.
Defined.
